(** * browser_use: HTTP traffic model and browser session manager

    A shallow embedding of [browser_use/http.py] and
    [browser_use/browser/browser.py].

    - [Py] models the part of the Python runtime the two files rely on:
      exceptions, truthiness, [str] and [bytes] built-ins, [dict].
    - [HTTPRequest], [HTTPResponse], [HTTPMessage], [HTTPMessageSession]
      follow the classes of [http.py].
    - [BrowserConfig] and [Browser] follow the classes of [browser.py]; the
      Playwright driver, [requests], [subprocess] and [asyncio.sleep] are an
      oracle over an abstract world, and every call to them is recorded.

    Calls to [logger] are left out: they change nothing a method returns
    or stores. *)

From Stdlib Require Import ZArith NArith List String Ascii Bool Lia.
From Stdlib.Strings Require Import Byte.
From Stdlib Require Import DecimalString DecimalPos.
Import ListNotations.

Local Open Scope string_scope.
Local Open Scope list_scope.
Local Open Scope Z_scope.

(** String concatenation, Python's [+] on [str]. *)
Infix "+++" := String.append (right associativity, at level 60).

(* ================================================================== *)
(** * The Python runtime, as far as the two files use it *)
(* ================================================================== *)

Module Py.

(** ** Exceptions.

    [CancelledError] stands for the exceptions that derive from
    [BaseException] only, which [except Exception] does not catch.
    [OutsideModel] is not a Python exception: Python checks no annotation,
    so [from_json] can return a record with a field of another type than
    the dataclass declares. Every [from_json] here first runs as the
    source does, on fields of any type, with every exception of the source
    in the order of the source; only when that has returned are the fields
    read at their annotated types, and [OutsideModel] marks a field that
    has another one. No theorem relies on it. *)
Inductive exn : Type :=
| Exception_ (msg : string)
| ValueError (msg : string)
| KeyError (key : string)
| TypeError (msg : string)
| AttributeError (msg : string)
| RuntimeError (msg : string)
| RequestsConnectionError (msg : string)
| EngineError (msg : string)
| CancelledError
| OutsideModel (field : string).

Inductive result (A : Type) : Type :=
| Ok (a : A)
| Raise (e : exn).
Arguments Ok {A} a.
Arguments Raise {A} e.

Definition bind {A B} (m : result A) (k : A -> result B) : result B :=
  match m with
  | Ok a => k a
  | Raise e => Raise e
  end.

Notation "x <- m ;; k" := (bind m (fun x => k))
  (at level 61, m at next level, right associativity).

(** [isinstance(e, Exception)] *)
Definition is_Exception (e : exn) : bool :=
  match e with
  | CancelledError => false
  | _ => true
  end.

(** [isinstance(e, requests.ConnectionError)] *)
Definition is_requests_ConnectionError (e : exn) : bool :=
  match e with
  | RequestsConnectionError _ => true
  | _ => false
  end.

(** [str(e)] for an exception built from one message. *)
Definition str_exn (e : exn) : string :=
  match e with
  | Exception_ m | ValueError m | TypeError m | AttributeError m
  | RuntimeError m | RequestsConnectionError m | EngineError m => m
  | KeyError k => k
  | CancelledError => ""
  | OutsideModel f => f
  end.

Fixpoint mapM {A B} (f : A -> result B) (l : list A) : result (list B) :=
  match l with
  | [] => Ok []
  | x :: xs => y <- f x ;; ys <- mapM f xs ;; Ok (y :: ys)
  end.

(** ** [str]

    A [str] is a [string] whose characters are the code points U+0000 to
    U+00FF, the range of an HTTP header octet. [bytes] is [list byte]. *)

Definition bytes := list byte.

Definition ord (c : ascii) : Z := Z.of_N (N_of_ascii c).
Definition chr (z : Z) : ascii := ascii_of_N (Z.to_N z).
Definition ord_byte (b : byte) : Z := Z.of_N (Byte.to_N b).
Definition byte_of_Z (z : Z) : byte :=
  match Byte.of_N (Z.to_N z) with
  | Some b => b
  | None => x00
  end.

Definition chars (s : string) : list ascii := list_ascii_of_string s.

Definition LF : string := String (chr 10) "".

(** Truthiness of a [str], of [bytes] and of an [Optional] of either. *)
Definition truthy_str (s : string) : bool :=
  match s with
  | EmptyString => false
  | String _ _ => true
  end.

Definition truthy_bytes (b : bytes) : bool :=
  match b with
  | [] => false
  | _ :: _ => true
  end.

Definition truthy_opt_str (o : option string) : bool :=
  match o with
  | Some s => truthy_str s
  | None => false
  end.

Definition truthy_opt_bytes (o : option bytes) : bool :=
  match o with
  | Some b => truthy_bytes b
  | None => false
  end.

(** The value of an [Optional[str]] when it is true, [None] otherwise. *)
Definition if_true (o : option string) : option string :=
  match o with
  | Some ((String _ _) as s) => Some s
  | _ => None
  end.

(** Unicode [Numeric_Type=Decimal]: '0'..'9' in this range. *)
Definition decimal_value (c : ascii) : option Z :=
  let n := ord c in
  if (48 <=? n) && (n <=? 57) then Some (n - 48) else None.

(** Unicode [Numeric_Type] in [Digit; Decimal]: '0'..'9' and the
    superscripts U+00B2, U+00B3, U+00B9. *)
Definition isdigit_char (c : ascii) : bool :=
  let n := ord c in
  ((48 <=? n) && (n <=? 57)) || (n =? 178) || (n =? 179) || (n =? 185).

(** [s.isdigit()]: every character is a digit and there is at least one. *)
Definition isdigit (s : string) : bool :=
  truthy_str s && forallb isdigit_char (chars s).

(** [s.isdecimal()]: every character is a decimal and there is at least
    one. *)
Definition isdecimal_char (c : ascii) : bool :=
  match decimal_value c with
  | Some _ => true
  | None => false
  end.

Definition isdecimal (s : string) : bool :=
  truthy_str s && forallb isdecimal_char (chars s).

(** [s.lower()] *)
Definition lower_char (c : ascii) : ascii :=
  let n := ord c in
  if ((65 <=? n) && (n <=? 90))
     || ((192 <=? n) && (n <=? 222) && negb (n =? 215))
  then chr (n + 32) else c.

Fixpoint lower (s : string) : string :=
  match s with
  | EmptyString => EmptyString
  | String c r => String (lower_char c) (lower r)
  end.

Definition hex_digit (z : Z) : ascii :=
  if z <? 10 then chr (48 + z) else chr (87 + z).

(** ["\\x%02x"] *)
Definition hex_escape (n : Z) : string :=
  String "\" (String "x" (String (hex_digit (n / 16))
                                 (String (hex_digit (n mod 16)) ""))).

Definition contains_char (c : ascii) (l : list ascii) : bool :=
  existsb (Ascii.eqb c) l.

(** The quote [repr] picks: double quotes only when the text has a single
    quote and no double quote. *)
Definition single_quote : ascii := chr 39.
Definition double_quote : ascii := chr 34.

Definition repr_quote (l : list ascii) : ascii :=
  if contains_char single_quote l && negb (contains_char double_quote l)
  then double_quote else single_quote.

(** [str.isprintable] of one character. *)
Definition isprintable_char (c : ascii) : bool :=
  let n := ord c in
  ((32 <=? n) && (n <=? 126))
  || ((161 <=? n) && (n <=? 255) && negb (n =? 173)).

Definition repr_str_char (q c : ascii) : string :=
  let n := ord c in
  if Ascii.eqb c q || (n =? 92) then String "\" (String c "")
  else if n =? 9 then "\t"
  else if n =? 10 then "\n"
  else if n =? 13 then "\r"
  else if isprintable_char c then String c ""
  else hex_escape n.

Definition concat_map {A} (f : A -> string) (l : list A) : string :=
  fold_right (fun a acc => f a +++ acc) "" l.

(** [repr(s)] of a [str] *)
Definition repr_str (s : string) : string :=
  let q := repr_quote (chars s) in
  String q (concat_map (repr_str_char q) (chars s) +++ String q "").

Definition repr_bytes_char (q : ascii) (b : byte) : string :=
  let n := ord_byte b in
  if (n =? ord q) || (n =? 92) then String "\" (String (chr n) "")
  else if n =? 9 then "\t"
  else if n =? 10 then "\n"
  else if n =? 13 then "\r"
  else if (n <? 32) || (127 <=? n) then hex_escape n
  else String (chr n) "".

(** [str(b)] of a [bytes], which is [repr(b)]: the literal [b'...']. *)
Definition str_bytes (b : bytes) : string :=
  let q := repr_quote (map (fun x => chr (ord_byte x)) b) in
  String "b" (String q (concat_map (repr_bytes_char q) b +++ String q "")).

(** [s.encode()]: UTF-8. *)
Definition encode_char (c : ascii) : bytes :=
  let n := ord c in
  if n <? 128 then [byte_of_Z n]
  else [byte_of_Z (192 + n / 64); byte_of_Z (128 + n mod 64)].

Definition encode (s : string) : bytes := flat_map encode_char (chars s).

(** [str(n)] of an [int] *)
Definition str_int (z : Z) : string := NilZero.string_of_int (Z.to_int z).

(** [int(s)] in base 10, for an [s] without sign, blank or underscore
    (every [s] that passes [isdigit] is one): the value when all characters
    are decimal, [ValueError] otherwise. The interpreter's limit on the
    number of digits (4300 by default since CPython 3.11, where a longer
    text makes [int] and [str] raise [ValueError]) is a setting of the
    interpreter and is not modelled: [int] and [str_int] are those of an
    interpreter with the limit lifted. *)
Fixpoint int_acc (acc : Z) (l : list ascii) : option Z :=
  match l with
  | [] => Some acc
  | c :: r =>
      match decimal_value c with
      | Some d => int_acc (10 * acc + d) r
      | None => None
      end
  end.

Definition int (s : string) : result Z :=
  match chars s with
  | [] => Raise (ValueError ("invalid literal for int() with base 10: " +++ repr_str s))
  | l =>
      match int_acc 0 l with
      | Some z => Ok z
      | None => Raise (ValueError ("invalid literal for int() with base 10: " +++ repr_str s))
      end
  end.

(** ** Values of a JSON document and [dict] *)

#[warnings="-register-all"]
Inductive pyval : Type :=
| PNone
| PBool (b : bool)
| PInt (z : Z)
| PStr (s : string)
| PList (l : list pyval)
| PDict (d : list (string * pyval)).

(** A [dict] with [str] keys, in insertion order. *)
Definition dict (V : Type) := list (string * V).

Fixpoint dict_get {V} (k : string) (d : dict V) : option V :=
  match d with
  | [] => None
  | (k', v) :: r => if String.eqb k k' then Some v else dict_get k r
  end.

Definition dict_contains {V} (k : string) (d : dict V) : bool :=
  match dict_get k d with
  | Some _ => true
  | None => false
  end.

(** [d[k] = v]: in place when the key is there, appended otherwise. *)
Fixpoint dict_set {V} (k : string) (v : V) (d : dict V) : dict V :=
  match d with
  | [] => [(k, v)]
  | (k', v') :: r =>
      if String.eqb k k' then (k', v) :: r else (k', v') :: dict_set k v r
  end.

(** [bool(v)] *)
Definition truthy (v : pyval) : bool :=
  match v with
  | PNone => false
  | PBool b => b
  | PInt z => negb (z =? 0)
  | PStr s => truthy_str s
  | PList l => match l with [] => false | _ => true end
  | PDict d => match d with [] => false | _ => true end
  end.

(** [type(v).__name__] *)
Definition type_name (v : pyval) : string :=
  match v with
  | PNone => "NoneType"
  | PBool _ => "bool"
  | PInt _ => "int"
  | PStr _ => "str"
  | PList _ => "list"
  | PDict _ => "dict"
  end.

(** [v.encode()]: UTF-8 for a [str], [AttributeError] for anything
    else. *)
Definition encode_value (v : pyval) : result bytes :=
  match v with
  | PStr txt => Ok (encode txt)
  | _ => Raise (AttributeError
                  ("'" +++ type_name v +++ "' object has no attribute 'encode'"))
  end.

(** [data[k]] for a [str] key: [KeyError] on a dict without it,
    [TypeError] on anything that is not a dict. *)
Definition getitem (data : pyval) (k : string) : result pyval :=
  match data with
  | PDict d =>
      match dict_get k d with
      | Some v => Ok v
      | None => Raise (KeyError k)
      end
  | _ => Raise (TypeError "indices must be integers or object is not subscriptable")
  end.

(** [data.get(k)] and [k in data], called after [data[...]] succeeded, so
    on a dict. *)
Definition get (data : pyval) (k : string) : option pyval :=
  match data with
  | PDict d => dict_get k d
  | _ => None
  end.

Definition contains (data : pyval) (k : string) : bool :=
  match data with
  | PDict d => dict_contains k d
  | _ => false
  end.

(** [for x in v] *)
Definition iter (v : pyval) : result (list pyval) :=
  match v with
  | PList l => Ok l
  | PDict d => Ok (map (fun kv => PStr (fst kv)) d)
  | PStr s => Ok (map (fun c => PStr (String c "")) (chars s))
  | _ => Raise (TypeError "object is not iterable")
  end.

(** Reading a field at its annotated type. *)
Definition as_str (field : string) (v : pyval) : result string :=
  match v with
  | PStr s => Ok s
  | _ => Raise (OutsideModel field)
  end.

Definition as_opt_str (field : string) (v : pyval) : result (option string) :=
  match v with
  | PNone => Ok None
  | PStr s => Ok (Some s)
  | _ => Raise (OutsideModel field)
  end.

Definition as_int (field : string) (v : pyval) : result Z :=
  match v with
  | PInt z => Ok z
  | _ => Raise (OutsideModel field)
  end.

Definition as_bool (field : string) (v : pyval) : result bool :=
  match v with
  | PBool b => Ok b
  | _ => Raise (OutsideModel field)
  end.

Definition as_str_dict (field : string) (v : pyval) : result (dict string) :=
  match v with
  | PDict d => mapM (fun kv => s <- as_str field (snd kv) ;; Ok (fst kv, s)) d
  | _ => Raise (OutsideModel field)
  end.

Definition of_opt_str (o : option string) : pyval :=
  match o with
  | Some s => PStr s
  | None => PNone
  end.

Definition of_str_dict (d : dict string) : pyval :=
  PDict (map (fun kv => (fst kv, PStr (snd kv))) d).

(** [str(d)] of a [Dict[str, str]] *)
Fixpoint join (sep : string) (l : list string) : string :=
  match l with
  | [] => ""
  | [x] => x
  | x :: r => x +++ sep +++ join sep r
  end.

Definition str_dict (d : dict string) : string :=
  "{" +++ join ", " (map (fun kv => repr_str (fst kv) +++ ": " +++ repr_str (snd kv)) d)
      +++ "}".

End Py.

Import Py.

(* ================================================================== *)
(** * http.py *)
(* ================================================================== *)

Module HTTPRequest.

Record HTTPRequestData : Type := {
  method : string;
  url : string;
  headers : dict string;
  post_data : option string;
  redirected_from_url : option string;
  redirected_to_url : option string;
  is_iframe : bool
}.

(** [HTTPRequest] holds one [_data]. *)
Definition t := HTTPRequestData.

Definition minimal (u : string) : t :=
  {| method := ""; url := u; headers := []; post_data := None;
     redirected_from_url := None; redirected_to_url := None;
     is_iframe := false |}.

Definition redirected_from (self : t) : option t :=
  match redirected_from_url self with
  | Some u => if truthy_str u then Some (minimal u) else None
  | None => None
  end.

Definition redirected_to (self : t) : option t :=
  match redirected_to_url self with
  | Some u => if truthy_str u then Some (minimal u) else None
  | None => None
  end.

Definition to_json (self : t) : pyval :=
  PDict [ ("method", PStr (method self));
          ("url", PStr (url self));
          ("headers", of_str_dict (headers self));
          ("post_data", of_opt_str (post_data self));
          ("redirected_from", of_opt_str (redirected_from_url self));
          ("redirected_to", of_opt_str (redirected_to_url self));
          ("is_iframe", PBool (is_iframe self)) ].

(** [HTTPRequestData] as Python holds it: no annotation is checked, and a
    field holds whatever the document had. *)
Record Untyped : Type := {
  u_method : pyval;
  u_url : pyval;
  u_headers : pyval;
  u_post_data : pyval;
  u_redirected_from_url : pyval;
  u_redirected_to_url : pyval;
  u_is_iframe : pyval
}.

(** [from_json] as the source runs it: the seven subscriptions, in the
    order of the keyword arguments. *)
Definition from_json_untyped (data : pyval) : result Untyped :=
  m <- getitem data "method" ;;
  u <- getitem data "url" ;;
  h <- getitem data "headers" ;;
  p <- getitem data "post_data" ;;
  rf <- getitem data "redirected_from" ;;
  rt <- getitem data "redirected_to" ;;
  i <- getitem data "is_iframe" ;;
  Ok {| u_method := m; u_url := u; u_headers := h; u_post_data := p;
        u_redirected_from_url := rf; u_redirected_to_url := rt;
        u_is_iframe := i |}.

(** The fields at their annotated types. *)
Definition typed (r : Untyped) : result t :=
  m <- as_str "method" (u_method r) ;;
  u <- as_str "url" (u_url r) ;;
  h <- as_str_dict "headers" (u_headers r) ;;
  p <- as_opt_str "post_data" (u_post_data r) ;;
  rf <- as_opt_str "redirected_from" (u_redirected_from_url r) ;;
  rt <- as_opt_str "redirected_to" (u_redirected_to_url r) ;;
  i <- as_bool "is_iframe" (u_is_iframe r) ;;
  Ok {| method := m; url := u; headers := h; post_data := p;
        redirected_from_url := rf; redirected_to_url := rt; is_iframe := i |}.

Definition from_json (data : pyval) : result t :=
  r <- from_json_untyped data ;; typed r.

(** [str(x)] of an [Optional[str]]: the text itself, [None] as "None". *)
Definition str_opt_str (o : option string) : string :=
  match o with
  | Some s => s
  | None => "None"
  end.

Definition __str__ (self : t) : string :=
  let req_str := "[Request]: " +++ method self +++ " " +++ url self +++ LF in
  let req_str :=
    match redirected_from self with
    | Some q => req_str +++ "Redirected from: " +++ url q +++ LF
    | None => req_str
    end in
  let req_str :=
    match redirected_to self with
    | Some q => req_str +++ "Redirecting to: " +++ url q +++ LF
    | None => req_str
    end in
  let req_str :=
    if is_iframe self then req_str +++ "From iframe" +++ LF else req_str in
  let req_str := req_str +++ str_dict (headers self) +++ LF in
  req_str +++ str_opt_str (post_data self).

End HTTPRequest.

Module HTTPResponse.

Record HTTPResponseData : Type := {
  url : string;
  status : Z;
  headers : dict string;
  is_iframe : bool;
  body : option bytes;
  body_error : option string
}.

(** [HTTPResponse] holds one [_data]. *)
Definition t := HTTPResponseData.

(** A call a method makes on [self], recorded where a caller could have
    gone to the body. *)
Inductive call : Type :=
| Call_get_body.

Definition get_body (self : t) : result bytes :=
  match body_error self with
  | Some ((String _ _) as e) => Raise (Exception_ e)
  | _ =>
      match body self with
      | None => Raise (Exception_ "Response body not available")
      | Some b => Ok b
      end
  end.

Definition get_content_type (self : t) : string :=
  match headers self with
  | [] => ""
  | h =>
      let content_type :=
        match dict_get "content-type" h with
        | Some v => v
        | None => ""
        end in
      lower content_type
  end.

Definition get_status_code (self : t) : Z :=
  if status self =? 0 then 0 else status self.

Definition get_response_size (self : t) : result Z :=
  match headers self with
  | [] => Ok 0
  | h =>
      match dict_get "content-length" h with
      | Some ((String _ _) as content_length) =>
          if isdigit content_length then int content_length else Ok 0
      | _ => Ok 0
      end
  end.

(** [300 <= self.status < 400] *)
Definition is_redirect (self : t) : bool :=
  (300 <=? status self) && (status self <? 400).

Definition to_json (self : t) : result pyval :=
  size <- get_response_size self ;;
  let json_data : dict pyval :=
    [ ("url", PStr (url self));
      ("status", PInt (status self));
      ("headers", of_str_dict (headers self));
      ("content_type", PStr (get_content_type self));
      ("content_length", PInt size);
      ("is_iframe", PBool (is_iframe self)) ] in
  let json_data :=
    if negb (is_redirect self) then
      match body_error self, body self with
      | Some ((String _ _) as e), _ => dict_set "body_error" (PStr e) json_data
      | _, Some ((_ :: _) as b) => dict_set "body" (PStr (str_bytes b)) json_data
      | _, _ => json_data
      end
    else json_data in
  Ok (PDict json_data).

(** [HTTPResponseData] as Python holds it: no annotation is checked, and
    a field holds whatever the document had. The body is what [encode]
    returned, so it is [bytes] or [None]. *)
Record Untyped : Type := {
  u_url : pyval;
  u_status : pyval;
  u_headers : pyval;
  u_is_iframe : pyval;
  u_body : option bytes;
  u_body_error : pyval
}.

(** [from_json] as the source runs it: the four subscriptions, then
    [data.get("body", "").encode() if "body" in data else None], then
    [data.get("body_error")], in the order of the keyword arguments. *)
Definition from_json_untyped (data : pyval) : result Untyped :=
  u <- getitem data "url" ;;
  s <- getitem data "status" ;;
  h <- getitem data "headers" ;;
  i <- getitem data "is_iframe" ;;
  b <- (if contains data "body" then
          b <- encode_value (match get data "body" with
                             | Some v => v
                             | None => PStr ""
                             end) ;;
          Ok (Some b)
        else Ok None) ;;
  let e := match get data "body_error" with
           | Some v => v
           | None => PNone
           end in
  Ok {| u_url := u; u_status := s; u_headers := h; u_is_iframe := i;
        u_body := b; u_body_error := e |}.

(** The fields at their annotated types. *)
Definition typed (r : Untyped) : result t :=
  u <- as_str "url" (u_url r) ;;
  s <- as_int "status" (u_status r) ;;
  h <- as_str_dict "headers" (u_headers r) ;;
  i <- as_bool "is_iframe" (u_is_iframe r) ;;
  e <- as_opt_str "body_error" (u_body_error r) ;;
  Ok {| url := u; status := s; headers := h; is_iframe := i;
        body := u_body r; body_error := e |}.

Definition from_json (data : pyval) : result t :=
  r <- from_json_untyped data ;; typed r.

(** What a Playwright [Response] gives: [parent_frame] tells whether
    [response.frame.parent_frame] is a frame. *)
Record PwResponse : Type := {
  pw_url : string;
  pw_status : Z;
  pw_headers : dict string;
  pw_parent_frame : bool
}.

Definition from_pw (response : PwResponse) : t :=
  {| url := pw_url response;
     status := pw_status response;
     headers := pw_headers response;
     is_iframe := pw_parent_frame response;
     body := None;
     body_error := None |}.

(** The lines of [to_str] that come before the body. *)
Definition to_str_head (self : t) : string :=
  let resp_str :=
    "[Response]: " +++ url self +++ " " +++ str_int (status self) +++ LF in
  let resp_str :=
    if is_iframe self then resp_str +++ "From iframe" +++ LF else resp_str in
  resp_str +++ str_dict (headers self) +++ LF.

(** [to_str], with the calls to [get_body] it makes. *)
Definition to_str (self : t) : result string * list call :=
  let resp_str := to_str_head self in
  if is_redirect self then
    (Ok (resp_str +++ "[Redirect response - no body]"), [])
  else
    match get_body self with
    | Ok resp_bytes => (Ok (resp_str +++ str_bytes resp_bytes), [Call_get_body])
    | Raise e =>
        if is_Exception e then
          (Ok (resp_str +++ "[Error getting response body: " +++ str_exn e +++ "]"),
           [Call_get_body])
        else (Raise e, [Call_get_body])
    end.

End HTTPResponse.

Module HTTPMessage.

Record HTTPMessage : Type := {
  request : HTTPRequest.t;
  response : option HTTPResponse.t
}.

(** [if self.response]: an [HTTPResponse] object defines neither
    [__bool__] nor [__len__], so it is true whenever it is not [None]. *)
Definition to_json (self : HTTPMessage) : result pyval :=
  let json_data : dict pyval :=
    [ ("request", HTTPRequest.to_json (request self)) ] in
  match response self with
  | Some r =>
      j <- HTTPResponse.to_json r ;;
      Ok (PDict (dict_set "response" j json_data))
  | None => Ok (PDict json_data)
  end.

(** The message as Python holds it. *)
Record Untyped : Type := {
  u_request : HTTPRequest.Untyped;
  u_response : option HTTPResponse.Untyped
}.

(** [from_json] as the source runs it: the request first, then the
    response when [data.get("response")] is true. *)
Definition from_json_untyped (data : pyval) : result Untyped :=
  rq <- (v <- getitem data "request" ;; HTTPRequest.from_json_untyped v) ;;
  rs <- (match get data "response" with
         | Some v =>
             if truthy v then
               v' <- getitem data "response" ;;
               r <- HTTPResponse.from_json_untyped v' ;;
               Ok (Some r)
             else Ok None
         | None => Ok None
         end) ;;
  Ok {| u_request := rq; u_response := rs |}.

(** The fields at their annotated types. *)
Definition typed (r : Untyped) : result HTTPMessage :=
  rq <- HTTPRequest.typed (u_request r) ;;
  rs <- (match u_response r with
         | Some x => y <- HTTPResponse.typed x ;; Ok (Some y)
         | None => Ok None
         end) ;;
  Ok {| request := rq; response := rs |}.

Definition from_json (data : pyval) : result HTTPMessage :=
  r <- from_json_untyped data ;; typed r.

(** [to_str], with the calls to [get_body] made on the way. *)
Definition to_str (self : HTTPMessage)
  : result string * list HTTPResponse.call :=
  let req_str := HTTPRequest.__str__ (request self) in
  match response self with
  | Some r =>
      match HTTPResponse.to_str r with
      | (Ok resp_str, calls) => (Ok (req_str +++ LF +++ resp_str), calls)
      | (Raise e, calls) => (Raise e, calls)
      end
  | None => (Ok (req_str +++ LF +++ ""), [])
  end.

End HTTPMessage.

Module HTTPMessageSession.

Record HTTPMessageSession : Type := {
  messages : list HTTPMessage.HTTPMessage;
  name : string
}.

Definition to_json (self : HTTPMessageSession) : result pyval :=
  msgs <- mapM HTTPMessage.to_json (messages self) ;;
  Ok (PDict [ ("name", PStr (name self)); ("messages", PList msgs) ]).

(** The session as Python holds it. *)
Record Untyped : Type := {
  u_messages : list HTTPMessage.Untyped;
  u_name : pyval
}.

(** [from_json] as the source runs it: the messages of
    [data["messages"]] one after the other, then [data["name"]]. *)
Definition from_json_untyped (data : pyval) : result Untyped :=
  ms <- (v <- getitem data "messages" ;;
         l <- iter v ;;
         mapM HTTPMessage.from_json_untyped l) ;;
  n <- getitem data "name" ;;
  Ok {| u_messages := ms; u_name := n |}.

(** The fields at their annotated types. *)
Definition typed (r : Untyped) : result HTTPMessageSession :=
  ms <- mapM HTTPMessage.typed (u_messages r) ;;
  n <- as_str "name" (u_name r) ;;
  Ok {| messages := ms; name := n |}.

Definition from_json (data : pyval) : result HTTPMessageSession :=
  r <- from_json_untyped data ;; typed r.

End HTTPMessageSession.

(* ================================================================== *)
(** * browser/browser.py *)
(* ================================================================== *)

Module BrowserConfig.

(** Playwright's [ProxySettings], a [TypedDict]: a key that is not in the
    dictionary is [None] here. Building one checks nothing. *)
Record ProxySettings : Type := {
  server : string;
  username : option string;
  password : option string;
  bypass : option string
}.

(** The dataclass, with the attribute [proxy] that [__post_init__] adds.
    [new_context_config] is passed on to contexts and read by no method
    here. *)
Record BrowserConfig : Type := {
  headless : bool;
  disable_security : bool;
  extra_chromium_args : list string;
  chrome_instance_path : option string;
  wss_url : option string;
  cdp_url : option string;
  proxy_server : option string;
  proxy_username : option string;
  proxy_password : option string;
  proxy_bypass : option string;
  ignore_https_errors : bool;
  proxy_ca_cert : option string;
  _force_keep_browser_alive : bool;
  user_data_dir : option string;
  proxy : option ProxySettings
}.

Definition set_proxy (self : BrowserConfig) (p : option ProxySettings)
  : BrowserConfig :=
  {| headless := headless self;
     disable_security := disable_security self;
     extra_chromium_args := extra_chromium_args self;
     chrome_instance_path := chrome_instance_path self;
     wss_url := wss_url self;
     cdp_url := cdp_url self;
     proxy_server := proxy_server self;
     proxy_username := proxy_username self;
     proxy_password := proxy_password self;
     proxy_bypass := proxy_bypass self;
     ignore_https_errors := ignore_https_errors self;
     proxy_ca_cert := proxy_ca_cert self;
     _force_keep_browser_alive := _force_keep_browser_alive self;
     user_data_dir := user_data_dir self;
     proxy := p |}.

(** [__post_init__], which ends the construction of a [BrowserConfig].
    It has no [raise]; the [result] type lets a statement speak of a
    construction that fails. *)
Definition __post_init__ (self : BrowserConfig) : result BrowserConfig :=
  match proxy_server self with
  | Some ((String _ _) as srv) =>
      let proxy_settings :=
        {| server := srv; username := None; password := None;
           bypass := None |} in
      let proxy_settings :=
        if truthy_opt_str (proxy_username self)
           && truthy_opt_str (proxy_password self)
        then {| server := server proxy_settings;
                username := proxy_username self;
                password := proxy_password self;
                bypass := bypass proxy_settings |}
        else proxy_settings in
      let proxy_settings :=
        if truthy_opt_str (proxy_bypass self)
        then {| server := server proxy_settings;
                username := username proxy_settings;
                password := password proxy_settings;
                bypass := proxy_bypass self |}
        else proxy_settings in
      Ok (set_proxy self (Some proxy_settings))
  | _ => Ok (set_proxy self None)
  end.

End BrowserConfig.

Module Browser.
Import BrowserConfig.

Section WithEngine.

(** The driver object and the browser handle of Playwright. *)
Variables Playwright PlaywrightBrowser : Type.

(** Every call that leaves the program. *)
Inductive engine_call : Type :=
| Call_async_playwright_start
| Call_connect_over_cdp (p : Playwright) (endpoint_url : string) (timeout : Z)
    (proxy : option ProxySettings)
| Call_connect (p : Playwright) (ws_endpoint : string)
    (proxy : option ProxySettings)
| Call_launch (p : Playwright) (headless : bool) (args : list string)
    (proxy : option ProxySettings)
| Call_browser_close (b : PlaywrightBrowser)
| Call_playwright_stop (p : Playwright)
| Call_requests_get (url : string) (timeout : Z)
| Call_Popen (cmd_args : list string)
| Call_sleep (secs : Z)
| Call_gc_collect.

(** What the outside answers: each call returns or raises, and moves the
    world on. [requests_get] returns the status code. *)
Variable World : Type.

Record Engine : Type := {
  async_playwright_start : World -> result Playwright * World;
  connect_over_cdp :
    Playwright -> string -> Z -> option ProxySettings ->
    World -> result PlaywrightBrowser * World;
  connect :
    Playwright -> string -> option ProxySettings ->
    World -> result PlaywrightBrowser * World;
  launch :
    Playwright -> bool -> list string -> option ProxySettings ->
    World -> result PlaywrightBrowser * World;
  browser_close : PlaywrightBrowser -> World -> result unit * World;
  playwright_stop : Playwright -> World -> result unit * World;
  requests_get : string -> Z -> World -> result Z * World;
  Popen : list string -> World -> result unit * World;
  sleep : Z -> World -> result unit * World
}.

Variable engine : Engine.

(** The [Browser] object. *)
Record Browser : Type := {
  config : BrowserConfig;
  playwright : option Playwright;
  playwright_browser : option PlaywrightBrowser;
  disable_security_args : list string
}.

(** The object, the world and the calls made so far, oldest first. *)
Record State : Type := {
  self : Browser;
  world : World;
  trace : list engine_call
}.

Definition M (A : Type) : Type := State -> result A * State.

Definition ret {A} (a : A) : M A := fun st => (Ok a, st).
Definition raise {A} (e : exn) : M A := fun st => (Raise e, st).

Definition mbind {A B} (m : M A) (k : A -> M B) : M B :=
  fun st =>
    match m st with
    | (Ok a, st') => k a st'
    | (Raise e, st') => (Raise e, st')
    end.

Notation "x <-- m ;; k" := (mbind m (fun x => k))
  (at level 61, m at next level, right associativity).
Notation "m ;;; k" := (mbind m (fun _ => k))
  (at level 61, right associativity).

(** [try: m  except Exception as e: h e] *)
Definition try_except {A} (m : M A) (h : exn -> M A) : M A :=
  fun st =>
    match m st with
    | (Ok a, st') => (Ok a, st')
    | (Raise e, st') => if is_Exception e then h e st' else (Raise e, st')
    end.

(** [try: m  except requests.ConnectionError: h] *)
Definition try_except_ConnectionError {A} (m : M A) (h : M A) : M A :=
  fun st =>
    match m st with
    | (Ok a, st') => (Ok a, st')
    | (Raise e, st') =>
        if is_requests_ConnectionError e then h st' else (Raise e, st')
    end.

(** [try: m  finally: f] *)
Definition try_finally {A} (m : M A) (f : M unit) : M A :=
  fun st =>
    let '(r, st') := m st in
    match f st' with
    | (Ok _, st'') => (r, st'')
    | (Raise e, st'') => (Raise e, st'')
    end.

Definition get_self : M Browser := fun st => (Ok (self st), st).

Definition put_self (b : Browser) : M unit :=
  fun st => (Ok tt, {| self := b; world := world st; trace := trace st |}).

(** One call to the outside: recorded, then answered. *)
Definition perform {A} (c : engine_call) (f : World -> result A * World)
  : M A :=
  fun st =>
    let '(r, w) := f (world st) in
    (r, {| self := self st; world := w; trace := trace st ++ [c] |}).

Definition set_playwright (b : Browser) (p : option Playwright) : Browser :=
  {| config := config b; playwright := p;
     playwright_browser := playwright_browser b;
     disable_security_args := disable_security_args b |}.

Definition set_playwright_browser (b : Browser)
  (h : option PlaywrightBrowser) : Browser :=
  {| config := config b; playwright := playwright b;
     playwright_browser := h;
     disable_security_args := disable_security_args b |}.

Definition __init__ (config : BrowserConfig) : Browser :=
  {| config := config;
     playwright := None;
     playwright_browser := None;
     disable_security_args :=
       if disable_security config then
         [ "--disable-web-security";
           "--disable-site-isolation-trials";
           "--disable-features=IsolateOrigins,site-per-process" ]
       else [] |}.

(** [args.append(f"{flag}{value}")] when [value] is true. *)
Definition flag_if (flag : string) (value : option string) : list string :=
  match if_true value with
  | Some v => [flag +++ v]
  | None => []
  end.

Definition _setup_cdp (p : Playwright) : M PlaywrightBrowser :=
  b <-- get_self ;;
  match if_true (cdp_url (config b)) with
  | None => raise (ValueError "CDP URL is required")
  | Some url =>
      perform (Call_connect_over_cdp p url 20000 (proxy (config b)))
              (connect_over_cdp engine p url 20000 (proxy (config b)))
  end.

Definition _setup_wss (p : Playwright) : M PlaywrightBrowser :=
  b <-- get_self ;;
  match if_true (wss_url (config b)) with
  | None => raise (ValueError "WSS URL is required")
  | Some url =>
      perform (Call_connect p url (proxy (config b)))
              (connect engine p url (proxy (config b)))
  end.

Definition debug_version_url : string := "http://localhost:9222/json/version".
Definition debug_endpoint : string := "http://localhost:9222".

(** The loop [for _ in range(n)] that waits for the debug port. *)
Fixpoint poll (n : nat) : M unit :=
  match n with
  | O => ret tt
  | S n' =>
      up <-- try_except_ConnectionError
               (code <-- perform (Call_requests_get debug_version_url 2)
                                 (requests_get engine debug_version_url 2) ;;
                ret (code =? 200))
               (ret false) ;;
      if up then ret tt
      else perform (Call_sleep 1) (sleep engine 1) ;;; poll n'
  end.

Definition _setup_browser_with_instance (p : Playwright)
  : M PlaywrightBrowser :=
  b <-- get_self ;;
  let c := config b in
  match if_true (chrome_instance_path c) with
  | None => raise (ValueError "Chrome instance path is required")
  | Some path =>
      let extra_args :=
        flag_if "--proxy-server=" (proxy_server c)
        ++ flag_if "--proxy-bypass-list=" (proxy_bypass c)
        ++ (if ignore_https_errors c then ["--ignore-certificate-errors"] else [])
        ++ flag_if "--ca-certificates-path=" (proxy_ca_cert c)
        ++ flag_if "--user-data-dir=" (user_data_dir c) in
      running <-- try_except_ConnectionError
        (code <-- perform (Call_requests_get debug_version_url 2)
                          (requests_get engine debug_version_url 2) ;;
         if code =? 200 then
           h <-- perform (Call_connect_over_cdp p debug_endpoint 20000 None)
                         (connect_over_cdp engine p debug_endpoint 20000 None) ;;
           ret (Some h)
         else ret None)
        (ret None) ;;
      match running with
      | Some h => ret h
      | None =>
          let cmd_args :=
            [path; "--remote-debugging-port=9222"]
            ++ extra_args ++ extra_chromium_args c in
          perform (Call_Popen cmd_args) (Popen engine cmd_args) ;;;
          poll 10 ;;;
          try_except
            (perform (Call_connect_over_cdp p debug_endpoint 20000 (proxy c))
                     (connect_over_cdp engine p debug_endpoint 20000 (proxy c)))
            (fun _ => raise (RuntimeError
               " To start chrome in Debug mode, you need to close all existing Chrome instances and try again otherwise we can not connect to the instance."))
      end
  end.

Definition _setup_standard_browser (p : Playwright) : M PlaywrightBrowser :=
  b <-- get_self ;;
  let c := config b in
  let args :=
    [ "--no-sandbox";
      "--disable-blink-features=AutomationControlled";
      "--disable-infobars";
      "--disable-background-timer-throttling";
      "--disable-popup-blocking";
      "--disable-backgrounding-occluded-windows";
      "--disable-renderer-backgrounding";
      "--disable-window-activation";
      "--disable-focus-on-load";
      "--no-first-run";
      "--no-default-browser-check";
      "--no-startup-window";
      "--window-position=0,0" ]
    ++ disable_security_args b
    ++ (if ignore_https_errors c then ["--ignore-certificate-errors"] else [])
    ++ flag_if "--ca-certificates-path=" (proxy_ca_cert c)
    ++ flag_if "--user-data-dir=" (user_data_dir c)
    ++ extra_chromium_args c in
  perform (Call_launch p (headless c) args (proxy c))
          (launch engine p (headless c) args (proxy c)).

(** The handler of [_setup_browser] logs and re-raises. *)
Definition _setup_browser (p : Playwright) : M PlaywrightBrowser :=
  try_except
    (b <-- get_self ;;
     let c := config b in
     if truthy_opt_str (cdp_url c) then _setup_cdp p
     else if truthy_opt_str (wss_url c) then _setup_wss p
     else if truthy_opt_str (chrome_instance_path c)
          then _setup_browser_with_instance p
     else _setup_standard_browser p)
    (fun e => raise e).

(** [_init]; its decorator [time_execution_async] measures and logs. *)
Definition _init : M PlaywrightBrowser :=
  p <-- perform Call_async_playwright_start (async_playwright_start engine) ;;
  browser <-- _setup_browser p ;;
  b <-- get_self ;;
  put_self (set_playwright b (Some p)) ;;;
  b <-- get_self ;;
  put_self (set_playwright_browser b (Some browser)) ;;;
  ret browser.

Definition get_playwright_browser : M PlaywrightBrowser :=
  b <-- get_self ;;
  match playwright_browser b with
  | None => _init
  | Some h => ret h
  end.

(** [close]. [del self.x] leaves the attribute unset until the [finally]
    block assigns it; nothing reads it in between, and [None] stands for
    both. A handle or a driver object is true whenever it is not [None]. *)
Definition close : M unit :=
  try_finally
    (try_except
       (b <-- get_self ;;
        if negb (_force_keep_browser_alive (config b)) then
          (match playwright_browser b with
           | Some h =>
               perform (Call_browser_close h) (browser_close engine h) ;;;
               b <-- get_self ;;
               put_self (set_playwright_browser b None)
           | None => ret tt
           end) ;;;
          b <-- get_self ;;
          (match playwright b with
           | Some p =>
               perform (Call_playwright_stop p) (playwright_stop engine p) ;;;
               b <-- get_self ;;
               put_self (set_playwright b None)
           | None => ret tt
           end)
        else ret tt)
       (fun _ => ret tt))
    (b <-- get_self ;;
     put_self (set_playwright_browser b None) ;;;
     b <-- get_self ;;
     put_self (set_playwright b None) ;;;
     perform Call_gc_collect (fun w => (Ok tt, w))).

End WithEngine.

Arguments Call_async_playwright_start {Playwright PlaywrightBrowser}.
Arguments Call_connect_over_cdp {Playwright PlaywrightBrowser}.
Arguments Call_connect {Playwright PlaywrightBrowser}.
Arguments Call_launch {Playwright PlaywrightBrowser}.
Arguments Call_browser_close {Playwright PlaywrightBrowser}.
Arguments Call_playwright_stop {Playwright PlaywrightBrowser}.
Arguments Call_requests_get {Playwright PlaywrightBrowser}.
Arguments Call_Popen {Playwright PlaywrightBrowser}.
Arguments Call_sleep {Playwright PlaywrightBrowser}.
Arguments Call_gc_collect {Playwright PlaywrightBrowser}.
Arguments async_playwright_start {Playwright PlaywrightBrowser World}.
Arguments connect_over_cdp {Playwright PlaywrightBrowser World}.
Arguments connect {Playwright PlaywrightBrowser World}.
Arguments launch {Playwright PlaywrightBrowser World}.
Arguments browser_close {Playwright PlaywrightBrowser World}.
Arguments playwright_stop {Playwright PlaywrightBrowser World}.
Arguments requests_get {Playwright PlaywrightBrowser World}.
Arguments Popen {Playwright PlaywrightBrowser World}.
Arguments sleep {Playwright PlaywrightBrowser World}.
Arguments config {Playwright PlaywrightBrowser}.
Arguments playwright {Playwright PlaywrightBrowser}.
Arguments playwright_browser {Playwright PlaywrightBrowser}.
Arguments disable_security_args {Playwright PlaywrightBrowser}.
Arguments self {Playwright PlaywrightBrowser World}.
Arguments world {Playwright PlaywrightBrowser World}.
Arguments trace {Playwright PlaywrightBrowser World}.
Arguments set_playwright {Playwright PlaywrightBrowser}.
Arguments set_playwright_browser {Playwright PlaywrightBrowser}.
Arguments perform {Playwright PlaywrightBrowser World A}.
Arguments __init__ {Playwright PlaywrightBrowser}.
Arguments _setup_cdp {Playwright PlaywrightBrowser World}.
Arguments _setup_wss {Playwright PlaywrightBrowser World}.
Arguments poll {Playwright PlaywrightBrowser World}.
Arguments _setup_browser_with_instance {Playwright PlaywrightBrowser World}.
Arguments _setup_standard_browser {Playwright PlaywrightBrowser World}.
Arguments _setup_browser {Playwright PlaywrightBrowser World}.
Arguments _init {Playwright PlaywrightBrowser World}.
Arguments get_playwright_browser {Playwright PlaywrightBrowser World}.
Arguments close {Playwright PlaywrightBrowser World}.

End Browser.

(* ================================================================== *)
(** * The durable form: what a session keeps through [to_json] *)
(* ================================================================== *)

Module Durable.
Import HTTPResponse.

(** The keys [to_json] always writes for a response. *)
Definition base_fields (r : t) (size : Z) : dict pyval :=
  [ ("url", PStr (url r));
    ("status", PInt (status r));
    ("headers", of_str_dict (headers r));
    ("content_type", PStr (get_content_type r));
    ("content_length", PInt size);
    ("is_iframe", PBool (is_iframe r)) ].

(** The key it adds for the body, if any. *)
Definition body_fields (r : t) : dict pyval :=
  if is_redirect r then []
  else
    match body_error r, body r with
    | Some ((String _ _) as e), _ => [ ("body_error", PStr e) ]
    | _, Some ((_ :: _) as b) => [ ("body", PStr (str_bytes b)) ]
    | _, _ => []
    end.

(** The body error that comes back from the durable form: the one stored,
    unless it is the empty text. *)
Definition persisted_body_error (r : t) : option string :=
  if_true (body_error r).

(** The body that comes back from the durable form of a response that is
    not a redirect: the UTF-8 bytes of the text [str(body)] when the body
    is not empty and no body error is kept, and none otherwise. *)
Definition persisted_body (r : t) : option bytes :=
  if truthy_opt_str (body_error r) then None
  else
    match body r with
    | Some ((_ :: _) as b) => Some (encode (str_bytes b))
    | _ => None
    end.

Definition persisted_response (r : t) : t :=
  {| url := url r;
     status := status r;
     headers := headers r;
     is_iframe := is_iframe r;
     body := persisted_body r;
     body_error := persisted_body_error r |}.

Definition persisted_message (m : HTTPMessage.HTTPMessage)
  : HTTPMessage.HTTPMessage :=
  {| HTTPMessage.request := HTTPMessage.request m;
     HTTPMessage.response :=
       option_map persisted_response (HTTPMessage.response m) |}.

(** A response with a status outside [300, 400) whose [to_json] returns. *)
Definition persistable (r : t) : Prop :=
  is_redirect r = false /\ exists size, get_response_size r = Ok size.

(** [r'] is what the durable form gives back for [r]. *)
Definition restored_response (r r' : t) : Prop :=
  url r' = url r /\ status r' = status r /\ headers r' = headers r
  /\ is_iframe r' = is_iframe r
  /\ body_error r' = persisted_body_error r
  /\ body r' = persisted_body r.

Definition restored_message (m m' : HTTPMessage.HTTPMessage) : Prop :=
  HTTPMessage.request m' = HTTPMessage.request m
  /\ match HTTPMessage.response m, HTTPMessage.response m' with
     | None, None => True
     | Some r, Some r' => restored_response r r'
     | _, _ => False
     end.

(** ** The round trip as the specification words it *)

(** A body that is the UTF-8 encoding of some text. *)
Definition text_decodable (b : bytes) : Prop := exists s : string, encode s = b.

(** Field equality of two responses, the body taken either as it was or as
    the byte encoding of the text persisted for it. *)
Definition field_equal_response (r r' : t) : Prop :=
  url r' = url r /\ status r' = status r /\ headers r' = headers r
  /\ is_iframe r' = is_iframe r
  /\ body_error r' = body_error r
  /\ (body r' = body r
      \/ body r' = option_map (fun b => encode (str_bytes b)) (body r)).

Definition field_equal_message (m m' : HTTPMessage.HTTPMessage) : Prop :=
  HTTPMessage.request m' = HTTPMessage.request m
  /\ match HTTPMessage.response m, HTTPMessage.response m' with
     | None, None => True
     | Some r, Some r' => field_equal_response r r'
     | _, _ => False
     end.

Definition round_trip_law (S : HTTPMessageSession.HTTPMessageSession) : Prop :=
  (forall m r, In m (HTTPMessageSession.messages S) ->
     HTTPMessage.response m = Some r ->
     is_redirect r = false
     /\ forall b, body r = Some b -> text_decodable b) ->
  exists j S',
    HTTPMessageSession.to_json S = Ok j
    /\ HTTPMessageSession.from_json j = Ok S'
    /\ HTTPMessageSession.name S' = HTTPMessageSession.name S
    /\ Forall2 field_equal_message
         (HTTPMessageSession.messages S) (HTTPMessageSession.messages S').

(** ** Sample values *)

Definition sample_request : HTTPRequest.t :=
  {| HTTPRequest.method := "GET";
     HTTPRequest.url := "http://example.test/";
     HTTPRequest.headers := [("accept", "*/*")];
     HTTPRequest.post_data := None;
     HTTPRequest.redirected_from_url := None;
     HTTPRequest.redirected_to_url := None;
     HTTPRequest.is_iframe := false |}.

(** A 200 response whose body was read and is empty. *)
Definition empty_body_response : t :=
  {| url := "http://example.test/";
     status := 200;
     headers := [("content-length", "0")];
     is_iframe := false;
     body := Some [];
     body_error := None |}.

Definition empty_body_session : HTTPMessageSession.HTTPMessageSession :=
  {| HTTPMessageSession.messages :=
       [ {| HTTPMessage.request := sample_request;
            HTTPMessage.response := Some empty_body_response |} ];
     HTTPMessageSession.name := "capture" |}.

(** A 200 response with the body [hi]. *)
Definition hi_response : t :=
  {| url := "http://example.test/";
     status := 200;
     headers := [("content-type", "Text/Plain"); ("content-length", "2")];
     is_iframe := false;
     body := Some [x68; x69];
     body_error := None |}.

(** A 301 response that carries both a body and a body error. *)
Definition moved_response : t :=
  {| url := "http://example.test/old";
     status := 301;
     headers := [("location", "http://example.test/new")];
     is_iframe := true;
     body := Some [x68; x69];
     body_error := Some "Network.getResponseBody failed" |}.

(** A response whose body could not be read. *)
Definition failed_response : t :=
  {| url := "http://example.test/";
     status := 200;
     headers := [("content-length", "2")];
     is_iframe := false;
     body := Some [x68; x69];
     body_error := Some "Network.getResponseBody failed" |}.

(** A capture of two exchanges: one answered with [hi], one never
    answered. *)
Definition sample_session : HTTPMessageSession.HTTPMessageSession :=
  {| HTTPMessageSession.messages :=
       [ {| HTTPMessage.request := sample_request;
            HTTPMessage.response := Some hi_response |};
         {| HTTPMessage.request := sample_request;
            HTTPMessage.response := None |} ];
     HTTPMessageSession.name := "capture" |}.

(** SUPERSCRIPT TWO, U+00B2. *)
Definition superscript_two : string := String (chr 178) "".

(** A response whose [content-length] is that one character. *)
Definition superscript_length_response : t :=
  {| url := "http://example.test/";
     status := 200;
     headers := [("content-length", superscript_two)];
     is_iframe := false;
     body := None;
     body_error := None |}.

Definition sample_pw_response : PwResponse :=
  {| pw_url := "http://example.test/";
     pw_status := 200;
     pw_headers := [("content-length", "2")];
     pw_parent_frame := false |}.

End Durable.

(* ================================================================== *)
(** * The session manager as the specification words it, and samples *)
(* ================================================================== *)

Module Manager.
Import BrowserConfig Browser.

(** The construction of a configuration fails. *)
Definition construction_fails (c : BrowserConfig) : Prop :=
  exists e, __post_init__ c = Raise e.

(** A call that closes something in the engine. *)
Definition is_close_call {Playwright PlaywrightBrowser}
  (c : engine_call Playwright PlaywrightBrowser) : bool :=
  match c with
  | Call_browser_close _ | Call_playwright_stop _ => true
  | _ => false
  end.

(** [close] as a no-op: handle and driver as before, no closing call
    made. *)
Definition close_is_noop {Playwright PlaywrightBrowser World}
  (engine : Engine Playwright PlaywrightBrowser World)
  (st : State Playwright PlaywrightBrowser World) : Prop :=
  let st' := snd (close engine st) in
  playwright_browser (self st') = playwright_browser (self st)
  /\ playwright (self st') = playwright (self st)
  /\ existsb is_close_call (skipn (List.length (trace st)) (trace st')) = false.

(** A default configuration, as [BrowserConfig()] builds it. *)
Definition default_config : BrowserConfig :=
  {| headless := false;
     disable_security := true;
     extra_chromium_args := [];
     chrome_instance_path := None;
     wss_url := None;
     cdp_url := None;
     proxy_server := None;
     proxy_username := None;
     proxy_password := None;
     proxy_bypass := None;
     ignore_https_errors := false;
     proxy_ca_cert := None;
     _force_keep_browser_alive := false;
     user_data_dir := None;
     proxy := None |}.

(** A proxy with a user name and no password. *)
Definition partial_credentials_config : BrowserConfig :=
  {| headless := false;
     disable_security := true;
     extra_chromium_args := [];
     chrome_instance_path := None;
     wss_url := None;
     cdp_url := None;
     proxy_server := Some "http://proxy.test:3128";
     proxy_username := Some "user";
     proxy_password := None;
     proxy_bypass := Some "localhost";
     ignore_https_errors := false;
     proxy_ca_cert := None;
     _force_keep_browser_alive := false;
     user_data_dir := None;
     proxy := None |}.

(** Both remote endpoints and a local path at once. *)
Definition all_selectors_config : BrowserConfig :=
  {| headless := false;
     disable_security := true;
     extra_chromium_args := [];
     chrome_instance_path := Some "/usr/bin/chromium";
     wss_url := Some "ws://remote.test/devtools";
     cdp_url := Some "http://remote.test:9222";
     proxy_server := None;
     proxy_username := None;
     proxy_password := None;
     proxy_bypass := None;
     ignore_https_errors := false;
     proxy_ca_cert := None;
     _force_keep_browser_alive := false;
     user_data_dir := None;
     proxy := None |}.

Definition keep_alive_config : BrowserConfig :=
  {| headless := false;
     disable_security := true;
     extra_chromium_args := [];
     chrome_instance_path := None;
     wss_url := None;
     cdp_url := None;
     proxy_server := None;
     proxy_username := None;
     proxy_password := None;
     proxy_bypass := None;
     ignore_https_errors := false;
     proxy_ca_cert := None;
     _force_keep_browser_alive := true;
     user_data_dir := None;
     proxy := None |}.

(** An engine where handles are numbers, the world counts the handles
    given out, every connection succeeds and nothing answers on the debug
    port. *)
Definition counting_engine : Engine nat nat nat :=
  {| async_playwright_start := fun w => (Ok w, S w);
     connect_over_cdp := fun _ _ _ _ w => (Ok w, S w);
     connect := fun _ _ _ w => (Ok w, S w);
     launch := fun _ _ _ _ w => (Ok w, S w);
     browser_close := fun _ w => (Ok tt, w);
     playwright_stop := fun _ w => (Ok tt, w);
     requests_get := fun _ _ w =>
       (Raise (RequestsConnectionError "connection refused"), w);
     Popen := fun _ w => (Ok tt, w);
     sleep := fun _ w => (Ok tt, w) |}.

(** A manager that holds driver 3 and handle 7. *)
Definition holding (c : BrowserConfig) : State nat nat nat :=
  {| self := set_playwright_browser
               (set_playwright (__init__ c) (Some 3%nat)) (Some 7%nat);
     world := 8%nat;
     trace := [] |}.

(** A manager that holds nothing yet. *)
Definition fresh (c : BrowserConfig) : State nat nat nat :=
  {| self := __init__ c; world := 0%nat; trace := [] |}.

End Manager.

(* ================================================================== *)
(** * Further views and samples *)
(* ================================================================== *)

Module Views.
Import HTTPResponse.

(** The value of a decimal numeral read from the left, as [int] reads
    it. *)
Fixpoint uint_val (acc : Z) (d : Decimal.uint) : Z :=
  match d with
  | Decimal.Nil => acc
  | Decimal.D0 l => uint_val (10 * acc + 0) l
  | Decimal.D1 l => uint_val (10 * acc + 1) l
  | Decimal.D2 l => uint_val (10 * acc + 2) l
  | Decimal.D3 l => uint_val (10 * acc + 3) l
  | Decimal.D4 l => uint_val (10 * acc + 4) l
  | Decimal.D5 l => uint_val (10 * acc + 5) l
  | Decimal.D6 l => uint_val (10 * acc + 6) l
  | Decimal.D7 l => uint_val (10 * acc + 7) l
  | Decimal.D8 l => uint_val (10 * acc + 8) l
  | Decimal.D9 l => uint_val (10 * acc + 9) l
  end.

(** A character in 'A'..'Z'. *)
Definition is_ascii_upper (c : ascii) : bool :=
  (65 <=? ord c) && (ord c <=? 90).

(** What [to_str] writes after the head for a status outside
    [300, 400). *)
Definition body_text (r : t) : string :=
  match if_true (body_error r), body r with
  | Some msg, _ => "[Error getting response body: " +++ msg +++ "]"
  | None, None =>
      "[Error getting response body: Response body not available]"
  | None, Some b => str_bytes b
  end.

(** [r'] keeps what [r] had outside its body: url, status, headers and
    is_iframe; for a status in [300, 400) it has neither body nor body
    error. *)
Definition same_exchange_data (r r' : t) : Prop :=
  url r' = url r /\ status r' = status r /\ headers r' = headers r
  /\ is_iframe r' = is_iframe r
  /\ (is_redirect r = true -> body r' = None /\ body_error r' = None).

Definition same_exchange (m m' : HTTPMessage.HTTPMessage) : Prop :=
  HTTPMessage.request m' = HTTPMessage.request m
  /\ match HTTPMessage.response m, HTTPMessage.response m' with
     | None, None => True
     | Some r, Some r' => same_exchange_data r r'
     | _, _ => False
     end.

(** What comes back from the durable form of any response. *)
Definition kept_response (r : t) : t :=
  {| url := url r;
     status := status r;
     headers := headers r;
     is_iframe := is_iframe r;
     body := if is_redirect r then None else Durable.persisted_body r;
     body_error :=
       if is_redirect r then None else Durable.persisted_body_error r |}.

Definition kept_message (m : HTTPMessage.HTTPMessage)
  : HTTPMessage.HTTPMessage :=
  {| HTTPMessage.request := HTTPMessage.request m;
     HTTPMessage.response :=
       option_map kept_response (HTTPMessage.response m) |}.

(** A 200 response with the body [hi] and the empty text as body
    error. *)
Definition empty_error_response : t :=
  {| url := "http://example.test/";
     status := 200;
     headers := [("content-length", "2")];
     is_iframe := false;
     body := Some [x68; x69];
     body_error := Some "" |}.

(** A request that was redirected, seen from an iframe. *)
Definition redirected_request : HTTPRequest.t :=
  {| HTTPRequest.method := "POST";
     HTTPRequest.url := "http://example.test/new";
     HTTPRequest.headers := [("accept", "*/*")];
     HTTPRequest.post_data := Some "a=1";
     HTTPRequest.redirected_from_url := Some "http://example.test/old";
     HTTPRequest.redirected_to_url := None;
     HTTPRequest.is_iframe := true |}.

(** A capture with a redirect, an answer and an exchange never
    answered. *)
Definition mixed_session : HTTPMessageSession.HTTPMessageSession :=
  {| HTTPMessageSession.messages :=
       [ {| HTTPMessage.request := Durable.sample_request;
            HTTPMessage.response := Some Durable.moved_response |};
         {| HTTPMessage.request := redirected_request;
            HTTPMessage.response := Some Durable.hi_response |};
         {| HTTPMessage.request := Durable.sample_request;
            HTTPMessage.response := None |} ];
     HTTPMessageSession.name := "mixed" |}.

(** A response whose [content-length] is [str(1234)]. *)
Definition sized_response : t :=
  {| url := "http://example.test/";
     status := 200;
     headers := [("content-type", "text/html"); ("content-length", str_int 1234)];
     is_iframe := false;
     body := None;
     body_error := None |}.

(** A message document whose response is [null]. *)
Definition null_response_document : pyval :=
  PDict [ ("request", HTTPRequest.to_json redirected_request);
          ("response", PNone) ].

(** A response document whose body is a number. *)
Definition number_body_fields : dict pyval :=
  [ ("url", PStr "http://example.test/");
    ("status", PInt 200);
    ("headers", of_str_dict [("content-length", "2")]);
    ("is_iframe", PBool false);
    ("body", PInt 7) ].

End Views.

(* ================================================================== *)
(** * Further engines and views of the call trace *)
(* ================================================================== *)

Module Engines.
Import BrowserConfig Browser Manager.

(** A probe of the debug port, a pause, a spawned process. *)
Definition is_probe {Playwright PlaywrightBrowser}
  (c : engine_call Playwright PlaywrightBrowser) : bool :=
  match c with
  | Call_requests_get _ _ => true
  | _ => false
  end.

Definition is_sleep {Playwright PlaywrightBrowser}
  (c : engine_call Playwright PlaywrightBrowser) : bool :=
  match c with
  | Call_sleep _ => true
  | _ => false
  end.

Definition is_spawn {Playwright PlaywrightBrowser}
  (c : engine_call Playwright PlaywrightBrowser) : bool :=
  match c with
  | Call_Popen _ => true
  | _ => false
  end.

(** The calls of [n] rounds of the waiting loop in which the port never
    answers: a probe, then a pause of one second. *)
Fixpoint unanswered_rounds {Playwright PlaywrightBrowser} (n : nat)
  : list (engine_call Playwright PlaywrightBrowser) :=
  match n with
  | O => []
  | S n' =>
      Call_requests_get debug_version_url 2
      :: Call_sleep 1 :: unanswered_rounds n'
  end.

(** A computation that reaches the outside only: it leaves the [Browser]
    object as it was and adds its calls at the end of the trace. *)
Definition engine_only {Playwright PlaywrightBrowser World A}
  (m : M Playwright PlaywrightBrowser World A) : Prop :=
  forall st,
    self (snd (m st)) = self st
    /\ exists l, trace (snd (m st)) = trace st ++ l.

(** The debug port never answers. *)
Definition port_closed {Playwright PlaywrightBrowser World}
  (engine : Engine Playwright PlaywrightBrowser World) : Prop :=
  forall w, exists msg w',
    requests_get engine debug_version_url 2 w
    = (Raise (RequestsConnectionError msg), w').

(** Pauses and spawned processes go through. *)
Definition pauses_and_spawns {Playwright PlaywrightBrowser World}
  (engine : Engine Playwright PlaywrightBrowser World) : Prop :=
  (forall w, exists w', sleep engine 1 w = (Ok tt, w'))
  /\ (forall args w, exists w', Popen engine args w = (Ok tt, w')).

(** An engine whose debug port answers 200. *)
Definition answering_engine : Engine nat nat nat :=
  {| async_playwright_start := fun w => (Ok w, S w);
     connect_over_cdp := fun _ _ _ _ w => (Ok w, S w);
     connect := fun _ _ _ w => (Ok w, S w);
     launch := fun _ _ _ _ w => (Ok w, S w);
     browser_close := fun _ w => (Ok tt, w);
     playwright_stop := fun _ w => (Ok tt, w);
     requests_get := fun _ _ w => (Ok 200, w);
     Popen := fun _ w => (Ok tt, w);
     sleep := fun _ w => (Ok tt, w) |}.

(** An engine on which nothing connects or launches and closing a handle
    fails; the debug port never answers. *)
Definition refusing_engine : Engine nat nat nat :=
  {| async_playwright_start := fun w => (Ok w, S w);
     connect_over_cdp := fun _ _ _ _ w =>
       (Raise (EngineError "connect ECONNREFUSED"), w);
     connect := fun _ _ _ w => (Raise (EngineError "connect ECONNREFUSED"), w);
     launch := fun _ _ _ _ w => (Raise (EngineError "launch failed"), w);
     browser_close := fun _ w => (Raise (EngineError "Target closed"), w);
     playwright_stop := fun _ w => (Ok tt, w);
     requests_get := fun _ _ w =>
       (Raise (RequestsConnectionError "connection refused"), w);
     Popen := fun _ w => (Ok tt, w);
     sleep := fun _ w => (Ok tt, w) |}.

(** A local instance behind a proxy, as [__post_init__] leaves it. *)
Definition instance_config : BrowserConfig :=
  {| headless := false;
     disable_security := true;
     extra_chromium_args := ["--lang=en"];
     chrome_instance_path := Some "/usr/bin/chromium";
     wss_url := None;
     cdp_url := None;
     proxy_server := Some "http://proxy.test:3128";
     proxy_username := Some "user";
     proxy_password := Some "secret";
     proxy_bypass := None;
     ignore_https_errors := true;
     proxy_ca_cert := None;
     _force_keep_browser_alive := false;
     user_data_dir := Some "/tmp/profile";
     proxy := Some {| server := "http://proxy.test:3128";
                      username := Some "user";
                      password := Some "secret";
                      bypass := None |} |}.

End Engines.

(* ================================================================== *)
(** * Facts about the runtime model *)
(* ================================================================== *)

Module PyFacts.

Lemma bind_Ok {A B} (m : result A) (k : A -> result B) (b : B) :
  bind m k = Ok b -> exists a, m = Ok a /\ k a = Ok b.
Proof.
  destruct m as [a | e]; cbn; intros H.
  - exists a. split; [reflexivity | exact H].
  - discriminate H.
Qed.

Lemma truthy_str_true (s : string) : truthy_str s = true <-> s <> "".
Proof.
  destruct s; cbn; split; intros H; congruence.
Qed.

Lemma if_true_Some (o : option string) (s : string) :
  if_true o = Some s <-> o = Some s /\ s <> "".
Proof.
  destruct o as [[ | c r] | ]; cbn; split; intros H.
  - discriminate.
  - destruct H as [H1 H2]. injection H1 as <-. congruence.
  - injection H as <-. split; [reflexivity | discriminate].
  - destruct H as [H _]. exact H.
  - discriminate.
  - destruct H as [H _]. discriminate.
Qed.

Lemma if_true_truthy (o : option string) :
  truthy_opt_str o = true -> if_true o = o.
Proof. destruct o as [[ | c r] | ]; cbn; congruence. Qed.

Lemma if_true_falsy (o : option string) :
  truthy_opt_str o = false -> if_true o = None.
Proof. destruct o as [[ | c r] | ]; cbn; congruence. Qed.

(** A header dictionary goes through a document unchanged. *)
Lemma as_str_dict_of_str_dict (field : string) (h : dict string) :
  as_str_dict field (of_str_dict h) = Ok h.
Proof.
  unfold as_str_dict, of_str_dict.
  induction h as [ | [k v] h IH]; cbn.
  - reflexivity.
  - rewrite IH. reflexivity.
Qed.

Lemma as_opt_str_of_opt_str (field : string) (o : option string) :
  as_opt_str field (of_opt_str o) = Ok o.
Proof. destruct o; reflexivity. Qed.

(** Appending a key that is not there yet. *)
Lemma dict_set_fresh {V} (k : string) (v : V) (d : dict V) :
  dict_get k d = None -> dict_set k v d = d ++ [(k, v)].
Proof.
  induction d as [ | [k' v'] d IH]; cbn; intros H.
  - reflexivity.
  - destruct (String.eqb k k').
    + discriminate.
    + rewrite (IH H). reflexivity.
Qed.

Lemma length_append (a b : string) :
  String.length (a +++ b) = (String.length a + String.length b)%nat.
Proof.
  induction a as [ | c a IH]; cbn.
  - reflexivity.
  - rewrite IH. reflexivity.
Qed.

Lemma length_concat_map {A} (f : A -> string) (l : list A) :
  (forall a, 1 <= String.length (f a))%nat ->
  (List.length l <= String.length (concat_map f l))%nat.
Proof.
  intros Hf. unfold concat_map.
  induction l as [ | a l IH]; cbn [fold_right List.length String.length].
  - lia.
  - rewrite length_append. specialize (Hf a). lia.
Qed.

Lemma repr_bytes_char_length (q : ascii) (b : byte) :
  (1 <= String.length (repr_bytes_char q b))%nat.
Proof.
  unfold repr_bytes_char, hex_escape.
  repeat match goal with
         | |- context [if ?c then _ else _] => destruct c
         end; cbn; lia.
Qed.

Lemma encode_length (s : string) :
  (String.length s <= List.length (encode s))%nat.
Proof.
  unfold encode, chars.
  induction s as [ | c s IH];
    cbn [list_ascii_of_string flat_map String.length List.length].
  - lia.
  - rewrite List.length_app.
    assert (1 <= List.length (encode_char c))%nat
      by (unfold encode_char; destruct (ord c <? 128); cbn; lia).
    lia.
Qed.

(** The text persisted for a body is the literal [b'...']: its encoding is
    at least three bytes longer than the body, so never the body. *)
Lemma encode_str_bytes_longer (b : bytes) :
  (List.length b + 3 <= List.length (encode (str_bytes b)))%nat.
Proof.
  eapply Nat.le_trans; [ | apply encode_length].
  unfold str_bytes. cbn [String.length].
  rewrite length_append. cbn [String.length].
  pose proof (length_concat_map
                (repr_bytes_char
                   (repr_quote (map (fun x => chr (ord_byte x)) b))) b
                (repr_bytes_char_length _)).
  lia.
Qed.

Lemma encode_str_bytes_differs (b : bytes) : encode (str_bytes b) <> b.
Proof.
  intros H. pose proof (encode_str_bytes_longer b) as L.
  rewrite H in L. lia.
Qed.

End PyFacts.

(* ================================================================== *)
(** * http.py: responses *)
(* ================================================================== *)

Module ResponseFacts.
Import HTTPResponse Durable PyFacts.

(** ** [int] and [get_response_size] *)

Lemma int_acc_decimal (l : list ascii) (acc : Z) :
  forallb isdecimal_char l = true -> 0 <= acc ->
  exists z, int_acc acc l = Some z /\ 0 <= z.
Proof.
  revert acc. induction l as [ | c l IH]; cbn [int_acc forallb];
    intros acc H Hacc.
  - exists acc. split; [reflexivity | exact Hacc].
  - apply andb_prop in H. destruct H as [Hc Hl].
    unfold isdecimal_char in Hc. unfold decimal_value in *.
    destruct ((48 <=? ord c) && (ord c <=? 57)) eqn:E; [ | discriminate].
    apply andb_prop in E. destruct E as [E1 E2]. apply Z.leb_le in E1.
    apply IH; [exact Hl | lia].
Qed.

Lemma int_decimal (s : string) :
  isdecimal s = true -> exists z, int s = Ok z /\ 0 <= z.
Proof.
  unfold isdecimal, int. intros H. apply andb_prop in H. destruct H as [Hs Hl].
  destruct (int_acc_decimal (chars s) 0 Hl) as [z [Hz Hpos]]; [lia | ].
  exists z. destruct s as [ | c s]; [discriminate | ].
  unfold chars in *. cbn [list_ascii_of_string] in *. rewrite Hz.
  split; [reflexivity | exact Hpos].
Qed.

Lemma isdecimal_isdigit (s : string) : isdecimal s = true -> isdigit s = true.
Proof.
  unfold isdecimal, isdigit. intros H. apply andb_prop in H.
  destruct H as [Hs Hl]. rewrite Hs. cbn.
  rewrite forallb_forall in *. intros c Hc. specialize (Hl c Hc).
  unfold isdecimal_char, decimal_value, isdigit_char in *.
  destruct ((48 <=? ord c) && (ord c <=? 57)); [reflexivity | discriminate].
Qed.

Lemma int_acc_not_decimal (l : list ascii) (acc : Z) :
  forallb isdecimal_char l = false -> int_acc acc l = None.
Proof.
  revert acc. induction l as [ | c l IH]; cbn [int_acc forallb]; intros acc H.
  - discriminate.
  - unfold isdecimal_char in H.
    destruct (decimal_value c) as [d | ]; [ | reflexivity].
    apply IH. exact H.
Qed.

(** A text that [isdigit] accepts and [isdecimal] does not: [int] raises. *)
Lemma int_digit_not_decimal (s : string) :
  isdigit s = true -> isdecimal s = false ->
  int s = Raise (ValueError ("invalid literal for int() with base 10: "
                             +++ repr_str s)).
Proof.
  unfold isdigit, isdecimal, int. intros Hd Hn.
  apply andb_prop in Hd. destruct Hd as [Hs _]. rewrite Hs in Hn.
  cbn [andb] in Hn.
  destruct (chars s) as [ | c l] eqn:E; [reflexivity | ].
  rewrite (int_acc_not_decimal (c :: l) 0 Hn). reflexivity.
Qed.

(** The header is there and is made of decimals: its value. *)
Lemma get_response_size_decimal (r : t) (s : string) :
  dict_get "content-length" (headers r) = Some s ->
  isdecimal s = true ->
  exists z, int s = Ok z /\ get_response_size r = Ok z.
Proof.
  intros Hget Hdec. destruct (int_decimal s Hdec) as [z [Hz _]].
  exists z. split; [exact Hz | ].
  unfold get_response_size.
  destruct (headers r) as [ | kv h]; [discriminate | ].
  rewrite Hget. destruct s as [ | c s]; [discriminate | ].
  rewrite (isdecimal_isdigit _ Hdec). exact Hz.
Qed.

(** No header at all, the header missing or empty, or something in it
    that [isdigit] refuses: 0. *)
Lemma get_response_size_zero (r : t) :
  match dict_get "content-length" (headers r) with
  | Some s => isdigit s = false
  | None => True
  end ->
  get_response_size r = Ok 0.
Proof.
  unfold get_response_size. intros H.
  destruct (headers r) as [ | kv h]; [reflexivity | ].
  destruct (dict_get "content-length" (kv :: h)) as [[ | c s] | ];
    [reflexivity | rewrite H; reflexivity | reflexivity].
Qed.

(** [get_response_size] raises exactly on a header that [isdigit] accepts
    and [isdecimal] does not; everywhere else it returns a number that is
    not negative. *)
Lemma get_response_size_cases (r : t) :
  (exists z, get_response_size r = Ok z /\ 0 <= z)
  \/ (exists s,
        dict_get "content-length" (headers r) = Some s
        /\ isdigit s = true /\ isdecimal s = false
        /\ get_response_size r
           = Raise (ValueError ("invalid literal for int() with base 10: "
                                +++ repr_str s))).
Proof.
  destruct (dict_get "content-length" (headers r)) as [s | ] eqn:Hget.
  - destruct (isdigit s) eqn:Hd.
    + destruct (isdecimal s) eqn:Hn.
      * left. destruct (get_response_size_decimal r s Hget Hn) as [z [Hz Hr]].
        destruct (int_decimal s Hn) as [z' [Hz' Hpos]].
        rewrite Hz in Hz'. injection Hz' as <-.
        exists z. split; [exact Hr | exact Hpos].
      * right. exists s.
        split; [reflexivity | split; [exact Hd | split; [exact Hn | ]]].
        unfold get_response_size.
        destruct (headers r) as [ | kv h]; [discriminate | ].
        rewrite Hget. destruct s as [ | c s]; [discriminate | ].
        rewrite Hd. apply int_digit_not_decimal; assumption.
    + left. exists 0. split; [ | lia].
      apply get_response_size_zero. rewrite Hget. exact Hd.
  - left. exists 0. split; [ | lia].
    apply get_response_size_zero. rewrite Hget. exact I.
Qed.

(** [to_str] always returns a text: what [get_body] raises is caught. *)
Lemma to_str_returns (r : t) :
  exists text calls, to_str r = (Ok text, calls).
Proof.
  unfold to_str, get_body.
  destruct (is_redirect r); [eexists; eexists; reflexivity | ].
  destruct (body_error r) as [[ | c m] | ];
    destruct (body r) as [b | ]; eexists; eexists; reflexivity.
Qed.

(** ** The shape of [to_json] *)

Lemma to_json_shape (r : t) (size : Z) :
  get_response_size r = Ok size ->
  to_json r = Ok (PDict (base_fields r size ++ body_fields r)).
Proof.
  intros H. unfold to_json, body_fields. rewrite H. cbn [bind].
  destruct (is_redirect r); cbn [negb].
  - reflexivity.
  - destruct (body_error r) as [[ | c e] | ];
      destruct (body r) as [[ | x b] | ]; reflexivity.
Qed.

Lemma to_json_raises (r : t) (e : exn) :
  get_response_size r = Raise e -> to_json r = Raise e.
Proof. intros H. unfold to_json. rewrite H. reflexivity. Qed.

Lemma to_json_returns_iff (r : t) :
  (exists j, to_json r = Ok j) <-> (exists size, get_response_size r = Ok size).
Proof.
  split; intros [x H].
  - destruct (get_response_size r) as [size | e] eqn:E.
    + exists size. reflexivity.
    + rewrite (to_json_raises r e E) in H. discriminate.
  - eexists. apply (to_json_shape r x H).
Qed.

Lemma contains_base_body (r : t) (size : Z) (extra : dict pyval) :
  contains (PDict (base_fields r size ++ extra)) "body"
  = dict_contains "body" extra.
Proof. reflexivity. Qed.

Lemma contains_base_body_error (r : t) (size : Z) (extra : dict pyval) :
  contains (PDict (base_fields r size ++ extra)) "body_error"
  = dict_contains "body_error" extra.
Proof. reflexivity. Qed.

Lemma get_base_body_error (r : t) (size : Z) (extra : dict pyval) :
  get (PDict (base_fields r size ++ extra)) "body_error"
  = dict_get "body_error" extra.
Proof. reflexivity. Qed.

Lemma from_pw_has_no_body (pw : PwResponse) :
  body (from_pw pw) = None /\ body_error (from_pw pw) = None.
Proof. split; reflexivity. Qed.

(** ** [get_body] *)

(** C7, as the code has it. A response whose [body_error] is a text that
    is not empty, which is what the source tests with
    [if self._data.body_error]: [get_body] raises [Exception] with exactly
    the stored message. [get_body] is a
    function of the stored fields alone: the record holds no handle on the
    live response, nothing is read from outside and no new record is
    returned; the outcome is the same for every response with that
    [body_error], whatever its body and its other fields. *)
Theorem get_body_raises_stored_error (r : t) :
  truthy_opt_str (body_error r) = true ->
  exists msg,
    body_error r = Some msg
    /\ get_body r = Raise (Exception_ msg)
    /\ forall r', body_error r' = body_error r ->
                  get_body r' = Raise (Exception_ msg).
Proof.
  intros H. destruct (body_error r) as [msg | ] eqn:He; [ | discriminate].
  exists msg.
  assert (G : forall x, body_error x = Some msg ->
                        get_body x = Raise (Exception_ msg)).
  { intros x Hx. unfold get_body. rewrite Hx.
    destruct msg as [ | c m]; [discriminate | reflexivity]. }
  split; [reflexivity | split].
  - apply G. exact He.
  - intros r' Hr'. apply G. exact Hr'.
Qed.

Lemma get_body_raises_stored_error_witness :
  get_body failed_response
  = Raise (Exception_ "Network.getResponseBody failed").
Proof.
  destruct (get_body_raises_stored_error failed_response eq_refl)
    as [msg [Hm [Hg _]]].
  injection Hm as <-. exact Hg.
Defined.

(** C7, as the claim words it, fails on a response whose [body_error] is
    set to the empty text: [get_body] raises nothing and returns the
    stored body. *)
Lemma get_body_ignores_empty_error :
  body_error Views.empty_error_response = Some ""
  /\ get_body Views.empty_error_response = Ok [x68; x69]
  /\ get_body Views.empty_error_response <> Raise (Exception_ "").
Proof.
  split; [reflexivity | split; [reflexivity | discriminate]].
Qed.

(** Where the test does not fire: with the empty text as [body_error] the
    call goes on to the body. *)
Lemma get_body_empty_error (r : t) :
  body_error r = Some "" ->
  get_body r = match body r with
               | None => Raise (Exception_ "Response body not available")
               | Some b => Ok b
               end.
Proof. intros H. unfold get_body. rewrite H. reflexivity. Qed.

(** C8. A response with neither a body nor a body error, such as the one
    [from_pw] builds before the body is read: [get_body] raises [Exception]
    with the message "Response body not available"; it does not return an
    empty body. *)
Theorem get_body_not_available (r : t) :
  body r = None -> body_error r = None ->
  get_body r = Raise (Exception_ "Response body not available")
  /\ get_body r <> Ok [].
Proof.
  intros Hb He. unfold get_body. rewrite Hb, He.
  split; [reflexivity | discriminate].
Qed.

Lemma get_body_not_available_witness :
  get_body (from_pw sample_pw_response)
  = Raise (Exception_ "Response body not available").
Proof.
  exact (proj1 (get_body_not_available (from_pw sample_pw_response)
                  eq_refl eq_refl)).
Defined.

(** ** [to_json] and [to_str] *)

(** C6. A response with a status in [300, 400): the document [to_json]
    returns has neither the key "body" nor the key "body_error", whatever
    the stored body and body error ([to_json] returns unless
    [get_response_size] raises); and [to_str] ends with
    "[Redirect response - no body]" without a call to [get_body]. *)
Theorem redirect_has_no_body (r : t) :
  is_redirect r = true ->
  match to_json r with
  | Ok j => contains j "body" = false /\ contains j "body_error" = false
  | Raise e => get_response_size r = Raise e
  end
  /\ to_str r = (Ok (to_str_head r +++ "[Redirect response - no body]"), []).
Proof.
  intros H. split.
  - destruct (get_response_size r) as [size | e] eqn:E.
    + rewrite (to_json_shape r size E).
      rewrite contains_base_body, contains_base_body_error.
      unfold body_fields. rewrite H. split; reflexivity.
    + rewrite (to_json_raises r e E). reflexivity.
  - unfold to_str. rewrite H. reflexivity.
Qed.

Lemma redirect_has_no_body_witness :
  (exists j, to_json moved_response = Ok j
             /\ contains j "body" = false /\ contains j "body_error" = false)
  /\ snd (to_str moved_response) = [].
Proof.
  pose proof (redirect_has_no_body moved_response eq_refl) as [Hj Hs].
  split.
  - destruct (to_json moved_response) as [j | e] eqn:E.
    + exists j. split; [reflexivity | exact Hj].
    + discriminate Hj.
  - rewrite Hs. reflexivity.
Defined.

(** C9, as the code has it. The document [to_json] returns never has both
    keys "body" and "body_error". When both fields are set and not empty
    (the tests [if body_error] and [elif body] of the source), the key
    "body" is left out, and outside the redirect statuses "body_error" is
    there with the stored message. [to_json] returns unless
    [get_response_size] raises. *)
Theorem to_json_body_error_first (r : t) :
  match to_json r with
  | Ok j =>
      (contains j "body" = false \/ contains j "body_error" = false)
      /\ (truthy_opt_str (body_error r) = true ->
          truthy_opt_bytes (body r) = true ->
          contains j "body" = false
          /\ (is_redirect r = false ->
              get j "body_error" = option_map PStr (body_error r)))
  | Raise e => get_response_size r = Raise e
  end.
Proof.
  destruct (get_response_size r) as [size | e] eqn:E.
  - rewrite (to_json_shape r size E).
    rewrite contains_base_body, contains_base_body_error, get_base_body_error.
    unfold body_fields.
    destruct (is_redirect r);
      destruct (body_error r) as [[ | c m] | ];
      destruct (body r) as [[ | x b] | ]; cbn;
      (split; [auto | intros; try discriminate; split; auto; discriminate]).
  - rewrite (to_json_raises r e E). reflexivity.
Qed.

Lemma to_json_body_error_first_witness :
  exists j, to_json failed_response = Ok j
            /\ contains j "body" = false
            /\ get j "body_error" = Some (PStr "Network.getResponseBody failed").
Proof.
  pose proof (to_json_body_error_first failed_response) as H.
  destruct (to_json failed_response) as [j | e] eqn:E.
  - exists j. destruct H as [_ H].
    destruct (H eq_refl eq_refl) as [Hb He].
    split; [reflexivity | split; [exact Hb | exact (He eq_refl)]].
  - discriminate H.
Defined.

(** C9, as the claim words it, fails on a response where both fields are
    set and the body error is the empty text: [to_json] writes "body" and
    leaves "body_error" out. *)
Lemma to_json_writes_body_beside_empty_error :
  body_error Views.empty_error_response = Some ""
  /\ body Views.empty_error_response = Some [x68; x69]
  /\ exists j,
       to_json Views.empty_error_response = Ok j
       /\ contains j "body" = true
       /\ contains j "body_error" = false.
Proof.
  split; [reflexivity | split; [reflexivity | ]].
  eexists. split; [reflexivity | split; reflexivity].
Qed.

(** C10, at the input where the code leaves it. The header
    [content-length] holds the one character U+00B2: [isdigit] accepts it,
    [int] does not, and [get_response_size] raises [ValueError] where the
    claim has it return 0; [to_json], which calls it, raises too. *)
Theorem get_response_size_superscript_two :
  isdigit superscript_two = true
  /\ get_response_size superscript_length_response
     = Raise (ValueError ("invalid literal for int() with base 10: "
                          +++ repr_str superscript_two))
  /\ to_json superscript_length_response
     = Raise (ValueError ("invalid literal for int() with base 10: "
                          +++ repr_str superscript_two)).
Proof. repeat split; vm_compute; reflexivity. Qed.

End ResponseFacts.

(* ================================================================== *)
(** * http.py: the durable form of a session *)
(* ================================================================== *)

Module SessionFacts.
Import Durable PyFacts ResponseFacts.

Lemma request_round_trip (rq : HTTPRequest.t) :
  HTTPRequest.from_json (HTTPRequest.to_json rq) = Ok rq.
Proof.
  destruct rq as [m u h p rf rt i].
  unfold HTTPRequest.from_json, HTTPRequest.to_json.
  cbn [HTTPRequest.method HTTPRequest.url HTTPRequest.headers
       HTTPRequest.post_data HTTPRequest.redirected_from_url
       HTTPRequest.redirected_to_url HTTPRequest.is_iframe].
  pose proof (as_str_dict_of_str_dict "headers" h) as Hh.
  pose proof (as_opt_str_of_opt_str "post_data" p) as Hp.
  pose proof (as_opt_str_of_opt_str "redirected_from" rf) as Hrf.
  pose proof (as_opt_str_of_opt_str "redirected_to" rt) as Hrt.
  revert Hh Hp Hrf Hrt.
  generalize (of_str_dict h) (of_opt_str p) (of_opt_str rf) (of_opt_str rt).
  intros vh vp vrf vrt Hh Hp Hrf Hrt.
  cbn. rewrite Hh. cbn. rewrite Hp. cbn. rewrite Hrf. cbn. rewrite Hrt.
  reflexivity.
Qed.

(** A message document with a request written by [to_json] and a response
    document that loads. *)
Lemma message_from_json_pair (rq : HTTPRequest.t) (jr : pyval)
  (r : HTTPResponse.t) :
  truthy jr = true ->
  HTTPResponse.from_json jr = Ok r ->
  HTTPMessage.from_json
    (PDict [ ("request", HTTPRequest.to_json rq); ("response", jr) ])
  = Ok {| HTTPMessage.request := rq; HTTPMessage.response := Some r |}.
Proof.
  intros Ht Hr.
  pose proof (request_round_trip rq) as Hq.
  unfold HTTPRequest.from_json in Hq. apply bind_Ok in Hq.
  destruct Hq as [uq [Hq1 Hq2]].
  unfold HTTPResponse.from_json in Hr. apply bind_Ok in Hr.
  destruct Hr as [ur [Hr1 Hr2]].
  unfold HTTPMessage.from_json, HTTPMessage.from_json_untyped.
  cbn [getitem get dict_get String.eqb Ascii.eqb Bool.eqb bind].
  rewrite Hq1. cbn [bind]. rewrite Ht, Hr1. cbn [bind].
  unfold HTTPMessage.typed.
  cbn [HTTPMessage.u_request HTTPMessage.u_response].
  rewrite Hq2. cbn [bind]. rewrite Hr2. reflexivity.
Qed.

Lemma message_from_json_single (rq : HTTPRequest.t) :
  HTTPMessage.from_json (PDict [ ("request", HTTPRequest.to_json rq) ])
  = Ok {| HTTPMessage.request := rq; HTTPMessage.response := None |}.
Proof.
  pose proof (request_round_trip rq) as Hq.
  unfold HTTPRequest.from_json in Hq. apply bind_Ok in Hq.
  destruct Hq as [uq [Hq1 Hq2]].
  unfold HTTPMessage.from_json, HTTPMessage.from_json_untyped.
  cbn [getitem get dict_get String.eqb Ascii.eqb Bool.eqb bind].
  rewrite Hq1. cbn [bind]. unfold HTTPMessage.typed.
  cbn [HTTPMessage.u_request HTTPMessage.u_response].
  rewrite Hq2. reflexivity.
Qed.

(** Loading a list of documents one by one is loading them all untyped
    and then typing them all. *)
Lemma mapM_bind_split {A B C} (f : A -> result B) (g : B -> result C)
  (l : list A) (r : list C) :
  mapM (fun x => y <- f x ;; g y) l = Ok r ->
  exists mid, mapM f l = Ok mid /\ mapM g mid = Ok r.
Proof.
  revert r. induction l as [ | x l IH]; intros r H.
  - cbn in H. injection H as <-. exists []. split; reflexivity.
  - cbn [mapM] in H. apply bind_Ok in H. destruct H as [c [Hc H]].
    apply bind_Ok in H. destruct H as [cs [Hcs H]]. injection H as <-.
    apply bind_Ok in Hc. destruct Hc as [b [Hb Hg]].
    destruct (IH cs Hcs) as [mid [Hm1 Hm2]].
    exists (b :: mid). cbn [mapM]. rewrite Hb, Hm1, Hg, Hm2.
    split; reflexivity.
Qed.

(** A session document with a name and message documents that load. *)
Lemma session_from_json_messages (n : string) (js : list pyval)
  (ms : list HTTPMessage.HTTPMessage) :
  mapM HTTPMessage.from_json js = Ok ms ->
  HTTPMessageSession.from_json
    (PDict [ ("name", PStr n); ("messages", PList js) ])
  = Ok {| HTTPMessageSession.messages := ms;
          HTTPMessageSession.name := n |}.
Proof.
  intros H. unfold HTTPMessage.from_json in H.
  destruct (mapM_bind_split _ _ js ms H) as [mid [H1 H2]].
  unfold HTTPMessageSession.from_json, HTTPMessageSession.from_json_untyped.
  cbn [getitem dict_get String.eqb Ascii.eqb Bool.eqb bind iter].
  rewrite H1. cbn [bind]. unfold HTTPMessageSession.typed.
  cbn [HTTPMessageSession.u_messages HTTPMessageSession.u_name].
  rewrite H2. reflexivity.
Qed.

Lemma from_json_base (r : HTTPResponse.t) (size : Z) (extra : dict pyval) :
  HTTPResponse.from_json (PDict (base_fields r size ++ extra))
  = (b <- (if dict_contains "body" extra then
             b <- encode_value (match dict_get "body" extra with
                                | Some v => v
                                | None => PStr ""
                                end) ;;
             Ok (Some b)
           else Ok None) ;;
     e <- as_opt_str "body_error" (match dict_get "body_error" extra with
                                   | Some v => v
                                   | None => PNone
                                   end) ;;
     Ok {| HTTPResponse.url := HTTPResponse.url r;
           HTTPResponse.status := HTTPResponse.status r;
           HTTPResponse.headers := HTTPResponse.headers r;
           HTTPResponse.is_iframe := HTTPResponse.is_iframe r;
           HTTPResponse.body := b;
           HTTPResponse.body_error := e |}).
Proof.
  unfold HTTPResponse.from_json, HTTPResponse.from_json_untyped,
    HTTPResponse.typed, base_fields.
  pose proof (as_str_dict_of_str_dict "headers" (HTTPResponse.headers r)) as Hh.
  revert Hh. generalize (of_str_dict (HTTPResponse.headers r)).
  intros vh Hh. cbn. unfold dict_contains. cbn.
  destruct (dict_get "body" extra) as [[ | b | z | t | l | d] | ];
    cbn; rewrite ?Hh; reflexivity.
Qed.

(** A response outside the redirect statuses comes back as its persisted
    view. *)
Lemma response_round_trip (r : HTTPResponse.t) :
  persistable r ->
  exists j, HTTPResponse.to_json r = Ok j
            /\ truthy j = true
            /\ HTTPResponse.from_json j = Ok (persisted_response r).
Proof.
  intros [Hred [size Hsize]].
  exists (PDict (base_fields r size ++ body_fields r)).
  split; [apply to_json_shape; exact Hsize | ].
  split; [reflexivity | ].
  rewrite from_json_base.
  unfold body_fields, persisted_response, persisted_body, persisted_body_error.
  rewrite Hred.
  destruct (HTTPResponse.body_error r) as [[ | c m] | ];
    destruct (HTTPResponse.body r) as [[ | x b] | ]; reflexivity.
Qed.

Lemma message_round_trip (m : HTTPMessage.HTTPMessage) :
  (forall r, HTTPMessage.response m = Some r -> persistable r) ->
  exists j, HTTPMessage.to_json m = Ok j
            /\ HTTPMessage.from_json j = Ok (persisted_message m).
Proof.
  intros H. destruct m as [rq [r | ]]; unfold HTTPMessage.to_json;
    cbn [HTTPMessage.request HTTPMessage.response].
  - destruct (response_round_trip r (H r eq_refl)) as [j [Hj [Ht Hf]]].
    rewrite Hj. cbn [bind dict_set String.eqb Ascii.eqb Bool.eqb].
    eexists. split; [reflexivity | ].
    apply message_from_json_pair; assumption.
  - eexists. split; [reflexivity | ].
    apply message_from_json_single.
Qed.

Lemma messages_round_trip (l : list HTTPMessage.HTTPMessage) :
  (forall m r, In m l -> HTTPMessage.response m = Some r -> persistable r) ->
  exists js, mapM HTTPMessage.to_json l = Ok js
             /\ mapM HTTPMessage.from_json js = Ok (map persisted_message l).
Proof.
  induction l as [ | m l IH]; intros H.
  - exists []. split; reflexivity.
  - destruct (message_round_trip m) as [j [Hj Hf]].
    { intros r Hr. apply (H m r); [left; reflexivity | exact Hr]. }
    destruct IH as [js [Hjs Hfs]].
    { intros m' r Hin Hr. apply (H m' r); [right; exact Hin | exact Hr]. }
    exists (j :: js). cbn [mapM map]. rewrite Hj, Hjs, Hf, Hfs.
    split; reflexivity.
Qed.

Lemma restored_persisted (m : HTTPMessage.HTTPMessage) :
  restored_message m (persisted_message m).
Proof.
  destruct m as [rq [r | ]]; split; cbn; try reflexivity.
  repeat split; reflexivity.
Qed.

(** When [to_json] returns, every response's [get_response_size] did. *)
Lemma session_to_json_returns (S : HTTPMessageSession.HTTPMessageSession) j :
  HTTPMessageSession.to_json S = Ok j ->
  forall m r, In m (HTTPMessageSession.messages S) ->
    HTTPMessage.response m = Some r ->
    exists size, HTTPResponse.get_response_size r = Ok size.
Proof.
  unfold HTTPMessageSession.to_json. intros H.
  apply bind_Ok in H. destruct H as [js [Hjs _]]. clear j.
  revert js Hjs. induction (HTTPMessageSession.messages S) as [ | m0 l IH];
    intros js Hjs m r Hin Hr.
  - destruct Hin.
  - cbn [mapM] in Hjs. apply bind_Ok in Hjs. destruct Hjs as [j0 [Hj0 Hrest]].
    apply bind_Ok in Hrest. destruct Hrest as [js' [Hjs' _]].
    destruct Hin as [-> | Hin].
    + unfold HTTPMessage.to_json in Hj0. rewrite Hr in Hj0.
      apply bind_Ok in Hj0. destruct Hj0 as [jr [Hjr _]].
      apply to_json_returns_iff. exists jr. exact Hjr.
    + apply (IH js' Hjs' m r Hin Hr).
Qed.

Lemma restored_all (l : list HTTPMessage.HTTPMessage) :
  Forall2 restored_message l (map persisted_message l).
Proof.
  induction l as [ | m l IH]; cbn [map]; constructor.
  - apply restored_persisted.
  - exact IH.
Qed.

(** C1, as the code has it. A session whose responses all have a status
    outside [300, 400) and a [content-length] on which [get_response_size]
    returns: [from_json] of its [to_json] is a session with the same name
    and the same messages in the same order, every request equal to the
    original, every response equal to the original in url, status, headers
    and is_iframe; the body error comes back unless it was the empty text;
    the body comes back as the UTF-8 bytes of the text [str(body)] when it
    was not empty and no body error was kept, and as [None] otherwise. *)
Theorem session_round_trip (S : HTTPMessageSession.HTTPMessageSession) :
  (forall m r, In m (HTTPMessageSession.messages S) ->
     HTTPMessage.response m = Some r -> persistable r) ->
  exists j S',
    HTTPMessageSession.to_json S = Ok j
    /\ HTTPMessageSession.from_json j = Ok S'
    /\ HTTPMessageSession.name S' = HTTPMessageSession.name S
    /\ List.length (HTTPMessageSession.messages S')
       = List.length (HTTPMessageSession.messages S)
    /\ Forall2 restored_message
         (HTTPMessageSession.messages S) (HTTPMessageSession.messages S').
Proof.
  intros H.
  destruct (messages_round_trip (HTTPMessageSession.messages S) H)
    as [js [Hjs Hfs]].
  exists (PDict [ ("name", PStr (HTTPMessageSession.name S));
                  ("messages", PList js) ]).
  exists {| HTTPMessageSession.messages :=
              map persisted_message (HTTPMessageSession.messages S);
            HTTPMessageSession.name := HTTPMessageSession.name S |}.
  split.
  { unfold HTTPMessageSession.to_json. rewrite Hjs. reflexivity. }
  split.
  { apply session_from_json_messages. exact Hfs. }
  cbn [HTTPMessageSession.name HTTPMessageSession.messages].
  split; [reflexivity | ].
  split; [apply List.length_map | apply restored_all].
Qed.

Lemma session_round_trip_witness :
  exists j S',
    HTTPMessageSession.to_json sample_session = Ok j
    /\ HTTPMessageSession.from_json j = Ok S'
    /\ HTTPMessageSession.name S' = "capture"
    /\ List.length (HTTPMessageSession.messages S') = 2%nat
    /\ Forall2 restored_message
         (HTTPMessageSession.messages sample_session)
         (HTTPMessageSession.messages S').
Proof.
  apply (session_round_trip sample_session).
  intros m r [<- | [<- | []]] Hr; cbn in Hr.
  - injection Hr as <-. split; [reflexivity | exists 2; reflexivity].
  - discriminate Hr.
Defined.

(** The body [hi] comes back as the five bytes of the text [b'hi']. *)
Example hi_body_comes_back_quoted :
  persisted_body hi_response = Some [x62; x27; x68; x69; x27].
Proof. reflexivity. Qed.

(** No body comes back as it was: a body that is persisted comes back
    longer, and an empty one does not come back. *)
Lemma persisted_body_differs (r : HTTPResponse.t) (b : bytes) :
  HTTPResponse.body r = Some b -> persisted_body r <> Some b.
Proof.
  intros Hb. unfold persisted_body. rewrite Hb.
  destruct (truthy_opt_str (HTTPResponse.body_error r)); [discriminate | ].
  destruct b as [ | x b]; [discriminate | ].
  intros H. apply (encode_str_bytes_differs (x :: b)). congruence.
Qed.

(** What the empty-body session becomes: the response has no body any
    more. *)
Lemma empty_body_session_round_trip :
  (j <- HTTPMessageSession.to_json empty_body_session ;;
   HTTPMessageSession.from_json j)
  = Ok {| HTTPMessageSession.messages :=
            [ {| HTTPMessage.request := sample_request;
                 HTTPMessage.response :=
                   Some {| HTTPResponse.url := "http://example.test/";
                           HTTPResponse.status := 200;
                           HTTPResponse.headers := [("content-length", "0")];
                           HTTPResponse.is_iframe := false;
                           HTTPResponse.body := None;
                           HTTPResponse.body_error := None |} |} ];
          HTTPMessageSession.name := "capture" |}.
Proof. vm_compute. reflexivity. Qed.

(** C1, as the claim words it, fails on a 200 response whose body was read
    and is empty: the status is not a redirect, the empty body decodes as
    the empty text, and the response comes back without a body, which is
    neither the original body nor the encoding of a persisted text. *)
Lemma round_trip_law_fails_on_empty_body :
  ~ round_trip_law empty_body_session.
Proof.
  unfold round_trip_law. intros H.
  destruct H as [j [S' [Hto [Hfrom [_ Hall]]]]].
  { intros m r [<- | []] Hr. cbn in Hr. injection Hr as <-.
    split; [reflexivity | ].
    intros b Hb. cbn in Hb. injection Hb as <-.
    exists "". reflexivity. }
  pose proof empty_body_session_round_trip as E.
  rewrite Hto in E. cbn [bind] in E. rewrite Hfrom in E.
  injection E as ->.
  cbn [HTTPMessageSession.messages empty_body_session] in Hall.
  inversion Hall as [ | m m' l l' Hm _]; subst.
  destruct Hm as [_ Hr]. cbn in Hr.
  destruct Hr as [_ [_ [_ [_ [_ [Hb | Hb]]]]]]; discriminate Hb.
Qed.

End SessionFacts.

(* ================================================================== *)
(** * browser.py: configuration *)
(* ================================================================== *)

Module ConfigFacts.
Import BrowserConfig Manager PyFacts.

(** [__post_init__] always returns. *)
Lemma post_init_returns (c : BrowserConfig) :
  exists c', __post_init__ c = Ok c'.
Proof.
  unfold __post_init__.
  destruct (proxy_server c) as [[ | ch srv] | ]; eexists; reflexivity.
Qed.

(** Credentials enter the proxy settings only when both are true. *)
Lemma credentials_need_both (c : BrowserConfig) :
  truthy_opt_str (proxy_username c) && truthy_opt_str (proxy_password c)
  = false ->
  __post_init__ c
  = Ok (set_proxy c
          (option_map
             (fun srv => {| server := srv;
                            username := None;
                            password := None;
                            bypass := if_true (proxy_bypass c) |})
             (if_true (proxy_server c)))).
Proof.
  intros H. unfold __post_init__. rewrite H.
  destruct (proxy_server c) as [[ | ch srv] | ]; cbn; try reflexivity.
  destruct (truthy_opt_str (proxy_bypass c)) eqn:E; cbn.
  - rewrite (if_true_truthy _ E). reflexivity.
  - rewrite (if_true_falsy _ E). reflexivity.
Qed.

(** C2, as the code has it. A configuration in which exactly one of
    [proxy_username] and [proxy_password] is set (neither [None] nor empty):
    the construction returns; the proxy settings carry the server and the
    bypass list and neither user name nor password, and there are no proxy
    settings at all when no proxy server is set. No other field changes. *)
Theorem partial_credentials_are_dropped (c : BrowserConfig) :
  xorb (truthy_opt_str (proxy_username c))
       (truthy_opt_str (proxy_password c)) = true ->
  __post_init__ c
  = Ok (set_proxy c
          (option_map
             (fun srv => {| server := srv;
                            username := None;
                            password := None;
                            bypass := if_true (proxy_bypass c) |})
             (if_true (proxy_server c)))).
Proof.
  intros H. apply credentials_need_both.
  destruct (truthy_opt_str (proxy_username c));
    destruct (truthy_opt_str (proxy_password c)); cbn in *; congruence.
Qed.

Lemma partial_credentials_are_dropped_witness :
  __post_init__ partial_credentials_config
  = Ok (set_proxy partial_credentials_config
          (Some {| server := "http://proxy.test:3128";
                   username := None;
                   password := None;
                   bypass := Some "localhost" |})).
Proof.
  exact (partial_credentials_are_dropped partial_credentials_config eq_refl).
Defined.

(** C2, as the claim words it, fails on a proxy with a user name and no
    password: exactly one of the two is set and the construction
    returns. *)
Lemma partial_credentials_are_accepted :
  proxy_username partial_credentials_config = Some "user"
  /\ proxy_password partial_credentials_config = None
  /\ ~ construction_fails partial_credentials_config.
Proof.
  split; [reflexivity | split; [reflexivity | ]].
  intros [e H]. vm_compute in H. discriminate H.
Qed.

End ConfigFacts.

(* ================================================================== *)
(** * browser.py: the session manager *)
(* ================================================================== *)

Module BrowserFacts.
Import BrowserConfig Browser Manager PyFacts.

Section WithEngine.

Variables Playwright PlaywrightBrowser World : Type.
Variable engine : Engine Playwright PlaywrightBrowser World.

Abbreviation State := (State Playwright PlaywrightBrowser World).
Abbreviation M := (M Playwright PlaywrightBrowser World).

(** A handler that only re-raises changes nothing. *)
Lemma try_except_reraise {A} (m : M A) (st : State) :
  try_except _ _ _ m (fun e => raise _ _ _ e) st = m st.
Proof.
  unfold try_except, raise.
  destruct (m st) as [[a | e] st']; [reflexivity | ].
  destruct (is_Exception e); reflexivity.
Qed.

Lemma setup_browser_unfold (p : Playwright) (st : State) :
  _setup_browser engine p st
  = if truthy_opt_str (cdp_url (config (self st)))
    then _setup_cdp engine p st
    else if truthy_opt_str (wss_url (config (self st)))
    then _setup_wss engine p st
    else if truthy_opt_str (chrome_instance_path (config (self st)))
    then _setup_browser_with_instance engine p st
    else _setup_standard_browser engine p st.
Proof.
  unfold _setup_browser. rewrite try_except_reraise.
  unfold mbind, get_self.
  destruct (truthy_opt_str (cdp_url (config (self st)))); [reflexivity | ].
  destruct (truthy_opt_str (wss_url (config (self st)))); [reflexivity | ].
  destruct (truthy_opt_str (chrome_instance_path (config (self st))));
    reflexivity.
Qed.

(** [_setup_cdp] with an endpoint: one call, the connection over CDP. *)
Lemma setup_cdp_run (p : Playwright) (st : State) (url : string) :
  cdp_url (config (self st)) = Some url -> url <> "" ->
  _setup_cdp engine p st
  = perform (Call_connect_over_cdp p url 20000 (proxy (config (self st))))
            (connect_over_cdp engine p url 20000 (proxy (config (self st))))
            st.
Proof.
  intros Hu Hne. unfold _setup_cdp, mbind, get_self. rewrite Hu.
  destruct url as [ | c u]; [congruence | reflexivity].
Qed.

Lemma perform_trace {A} (c : engine_call Playwright PlaywrightBrowser)
  (f : World -> result A * World) (st : State) :
  trace (snd (perform c f st)) = trace st ++ [c]
  /\ self (snd (perform c f st)) = self st.
Proof. unfold perform. destruct (f (world st)); split; reflexivity. Qed.

(** C4. [_setup_browser] takes the first of the CDP endpoint, the WSS
    endpoint and the local instance path that is set (neither [None] nor
    empty), and the standard launch when none is. With the CDP and the WSS
    endpoint both set it runs [_setup_cdp]: the one call it makes is the
    connection over CDP to the CDP endpoint. *)
Theorem setup_browser_precedence (p : Playwright) (st : State) :
  _setup_browser engine p st
  = (if truthy_opt_str (cdp_url (config (self st)))
     then _setup_cdp engine p st
     else if truthy_opt_str (wss_url (config (self st)))
     then _setup_wss engine p st
     else if truthy_opt_str (chrome_instance_path (config (self st)))
     then _setup_browser_with_instance engine p st
     else _setup_standard_browser engine p st)
  /\ (truthy_opt_str (cdp_url (config (self st))) = true ->
      truthy_opt_str (wss_url (config (self st))) = true ->
      exists url,
        cdp_url (config (self st)) = Some url
        /\ _setup_browser engine p st = _setup_cdp engine p st
        /\ trace (snd (_setup_browser engine p st))
           = trace st
             ++ [Call_connect_over_cdp p url 20000 (proxy (config (self st)))]).
Proof.
  split; [apply setup_browser_unfold | ].
  intros Hcdp _. rewrite setup_browser_unfold, Hcdp.
  destruct (cdp_url (config (self st))) as [url | ] eqn:E; [ | discriminate].
  exists url. split; [reflexivity | split; [reflexivity | ]].
  rewrite (setup_cdp_run p st url E).
  - apply perform_trace.
  - apply truthy_str_true. exact Hcdp.
Qed.

(** Where the first test does not fire: an empty CDP endpoint is passed
    over, and a WSS endpoint that is set is taken. *)
Lemma setup_browser_empty_cdp (p : Playwright) (st : State) :
  cdp_url (config (self st)) = Some "" ->
  truthy_opt_str (wss_url (config (self st))) = true ->
  _setup_browser engine p st = _setup_wss engine p st.
Proof.
  intros Hc Hw. rewrite setup_browser_unfold, Hc, Hw. reflexivity.
Qed.

(** ** [get_playwright_browser] *)

(** A call that returns a handle leaves that handle stored. *)
Lemma get_playwright_browser_stores (st st' : State) (h : PlaywrightBrowser) :
  get_playwright_browser engine st = (Ok h, st') ->
  playwright_browser (self st') = Some h.
Proof.
  unfold get_playwright_browser, mbind, get_self. intros H.
  destruct (playwright_browser (self st)) as [h0 | ] eqn:E.
  - unfold ret in H. injection H as <- <-. exact E.
  - unfold _init, mbind, get_self, put_self, ret in H.
    destruct (perform Call_async_playwright_start
                (async_playwright_start engine) st) as [[p | e] st1];
      [ | discriminate].
    destruct (_setup_browser engine p st1) as [[b | e] st2]; [ | discriminate].
    cbn in H. injection H as <- <-. reflexivity.
Qed.

Lemma get_playwright_browser_live (st : State) (h : PlaywrightBrowser) :
  playwright_browser (self st) = Some h ->
  get_playwright_browser engine st = (Ok h, st).
Proof.
  intros H. unfold get_playwright_browser, mbind, get_self, ret.
  rewrite H. reflexivity.
Qed.

(** C5. With a handle already stored, [get_playwright_browser] returns
    that handle and leaves the manager, the world and the list of calls as
    they were: nothing is started and no strategy runs. *)
Theorem get_playwright_browser_idempotent (st : State)
  (h : PlaywrightBrowser) :
  playwright_browser (self st) = Some h ->
  get_playwright_browser engine st = (Ok h, st)
  /\ trace (snd (get_playwright_browser engine st)) = trace st.
Proof.
  intros H. rewrite (get_playwright_browser_live st h H).
  split; reflexivity.
Qed.

(** Two calls in a row: the second returns the handle of the first and
    changes nothing. *)
Lemma get_playwright_browser_twice (st st' : State) (h : PlaywrightBrowser) :
  get_playwright_browser engine st = (Ok h, st') ->
  get_playwright_browser engine st' = (Ok h, st').
Proof.
  intros H. apply get_playwright_browser_live.
  apply (get_playwright_browser_stores st st' h H).
Qed.

(** ** [close] *)

(** C3, as the code has it. With [_force_keep_browser_alive] set, [close]
    calls neither the handle's [close] nor the driver's [stop] and leaves
    the world as it was; its [finally] block still runs: the stored handle
    and the stored driver are both [None] afterwards, and the one call made
    is [gc.collect]. *)
Theorem close_keep_alive (st : State) :
  _force_keep_browser_alive (config (self st)) = true ->
  close engine st
  = (Ok tt,
     {| self := set_playwright (set_playwright_browser (self st) None) None;
        world := world st;
        trace := trace st ++ [Call_gc_collect] |}).
Proof.
  intros H.
  unfold close, try_finally, try_except, mbind, get_self, put_self, ret,
    perform.
  rewrite H. reflexivity.
Qed.

(** On every path [close] ends with neither a handle nor a driver
    stored. *)
Lemma close_resets (st : State) :
  playwright_browser (self (snd (close engine st))) = None
  /\ playwright (self (snd (close engine st))) = None.
Proof.
  unfold close, try_finally.
  match goal with
  | |- context [let '(r, st') := ?m st in _] => destruct (m st) as [r st1]
  end.
  unfold mbind, get_self, put_self, perform, ret. cbn.
  split; reflexivity.
Qed.

End WithEngine.

Lemma setup_browser_precedence_witness :
  trace (snd (_setup_browser counting_engine 0%nat (fresh all_selectors_config)))
  = [Call_connect_over_cdp 0%nat "http://remote.test:9222" 20000 None].
Proof.
  destruct (proj2 (setup_browser_precedence nat nat nat counting_engine 0%nat
                     (fresh all_selectors_config)) eq_refl eq_refl)
    as [url [Hu [_ Ht]]].
  injection Hu as <-. exact Ht.
Defined.

Lemma get_playwright_browser_idempotent_witness :
  get_playwright_browser counting_engine (holding default_config)
  = (Ok 7%nat, holding default_config).
Proof.
  exact (proj1 (get_playwright_browser_idempotent nat nat nat counting_engine
                  (holding default_config) 7%nat eq_refl)).
Defined.

Lemma close_keep_alive_witness :
  playwright_browser
    (self (snd (close counting_engine (holding keep_alive_config)))) = None
  /\ trace (snd (close counting_engine (holding keep_alive_config)))
     = [Call_gc_collect].
Proof.
  rewrite (close_keep_alive nat nat nat counting_engine
             (holding keep_alive_config) eq_refl).
  split; reflexivity.
Defined.

(** C3, as the claim words it, fails on a manager that holds a handle:
    after [close] the handle is gone. *)
Lemma close_keep_alive_forgets_handle :
  _force_keep_browser_alive (config (self (holding keep_alive_config))) = true
  /\ ~ close_is_noop counting_engine (holding keep_alive_config).
Proof.
  split; [reflexivity | ].
  unfold close_is_noop. intros [H _]. vm_compute in H. discriminate H.
Qed.

End BrowserFacts.

(* ================================================================== *)
(** * http.py: requests, rendering and loading *)
(* ================================================================== *)

Module HttpExtra.
Import Durable Views PyFacts ResponseFacts SessionFacts.

(** ** Requests *)

(** X1. A request goes through [to_json] and [from_json] unchanged: every
    field of the request that comes back is the field that went in. *)
Theorem request_document_round_trip (rq : HTTPRequest.t) :
  HTTPRequest.from_json (HTTPRequest.to_json rq) = Ok rq.
Proof. apply request_round_trip. Qed.

(** X2. [redirected_from] hands out a request exactly when the stored
    [redirected_from_url] is a text that is not empty, and that request
    carries this very URL; [redirected_to] does the same with
    [redirected_to_url]. Either request carries nothing else: no method,
    no headers, no data, no iframe mark, and no redirect of its own. *)
Theorem redirect_view_is_minimal (rq q : HTTPRequest.t) :
  (HTTPRequest.redirected_from rq = Some q ->
   HTTPRequest.redirected_from_url rq = Some (HTTPRequest.url q)
   /\ HTTPRequest.url q <> ""
   /\ HTTPRequest.method q = ""
   /\ HTTPRequest.headers q = []
   /\ HTTPRequest.post_data q = None
   /\ HTTPRequest.is_iframe q = false
   /\ HTTPRequest.redirected_from q = None
   /\ HTTPRequest.redirected_to q = None)
  /\ (HTTPRequest.redirected_to rq = Some q ->
      HTTPRequest.redirected_to_url rq = Some (HTTPRequest.url q)
      /\ HTTPRequest.url q <> ""
      /\ HTTPRequest.method q = ""
      /\ HTTPRequest.headers q = []
      /\ HTTPRequest.post_data q = None
      /\ HTTPRequest.is_iframe q = false
      /\ HTTPRequest.redirected_from q = None
      /\ HTTPRequest.redirected_to q = None)
  /\ (HTTPRequest.redirected_from rq = None
      <-> truthy_opt_str (HTTPRequest.redirected_from_url rq) = false)
  /\ (HTTPRequest.redirected_to rq = None
      <-> truthy_opt_str (HTTPRequest.redirected_to_url rq) = false).
Proof.
  unfold HTTPRequest.redirected_from, HTTPRequest.redirected_to.
  split; [ | split; [ | split]].
  - destruct (HTTPRequest.redirected_from_url rq) as [[ | c u] | ];
      intros H; try discriminate.
    injection H as <-. cbn.
    split; [reflexivity | split; [discriminate | repeat split; reflexivity]].
  - destruct (HTTPRequest.redirected_to_url rq) as [[ | c u] | ];
      intros H; try discriminate.
    injection H as <-. cbn.
    split; [reflexivity | split; [discriminate | repeat split; reflexivity]].
  - destruct (HTTPRequest.redirected_from_url rq) as [[ | c u] | ]; cbn;
      split; intros H; try reflexivity; discriminate.
  - destruct (HTTPRequest.redirected_to_url rq) as [[ | c u] | ]; cbn;
      split; intros H; try reflexivity; discriminate.
Qed.

Lemma redirect_view_is_minimal_witness :
  HTTPRequest.redirected_from redirected_request
  = Some (HTTPRequest.minimal "http://example.test/old")
  /\ HTTPRequest.redirected_from_url redirected_request
     = Some "http://example.test/old"
  /\ HTTPRequest.redirected_to redirected_request = None.
Proof.
  split; [reflexivity | ].
  split.
  - exact (proj1 (proj1 (redirect_view_is_minimal redirected_request
                           (HTTPRequest.minimal "http://example.test/old"))
                    eq_refl)).
  - exact (proj2 (proj2 (proj2 (proj2
             (redirect_view_is_minimal redirected_request
                (HTTPRequest.minimal "http://example.test/old")))))
             eq_refl).
Defined.

(** ** [get_content_type] *)

Lemma lower_char_idempotent (c : ascii) :
  lower_char (lower_char c) = lower_char c.
Proof. destruct c as [[] [] [] [] [] [] [] []]; vm_compute; reflexivity. Qed.

Lemma lower_char_not_upper (c : ascii) :
  is_ascii_upper (lower_char c) = false.
Proof. destruct c as [[] [] [] [] [] [] [] []]; vm_compute; reflexivity. Qed.

Lemma lower_idempotent (s : string) : lower (lower s) = lower s.
Proof.
  induction s as [ | c s IH]; cbn [lower].
  - reflexivity.
  - rewrite lower_char_idempotent, IH. reflexivity.
Qed.

Lemma lower_not_upper (s : string) :
  existsb is_ascii_upper (chars (lower s)) = false.
Proof.
  unfold chars.
  induction s as [ | c s IH]; cbn [lower list_ascii_of_string existsb].
  - reflexivity.
  - rewrite lower_char_not_upper, IH. reflexivity.
Qed.

(** X3. The content type comes out in lower case whatever the case of the
    header value: it holds no letter 'A'..'Z' and lowering it again changes
    nothing. *)
Theorem get_content_type_is_lower_case (r : HTTPResponse.t) :
  existsb is_ascii_upper (chars (HTTPResponse.get_content_type r)) = false
  /\ lower (HTTPResponse.get_content_type r) = HTTPResponse.get_content_type r.
Proof.
  unfold HTTPResponse.get_content_type.
  destruct (HTTPResponse.headers r) as [ | kv h]; [split; reflexivity | ].
  split; [apply lower_not_upper | apply lower_idempotent].
Qed.

(** ** [get_response_size] *)

Lemma int_acc_string_of_uint (d : Decimal.uint) (acc : Z) :
  int_acc acc (chars (NilEmpty.string_of_uint d)) = Some (uint_val acc d).
Proof.
  unfold chars. revert acc.
  induction d as [ | d IH | d IH | d IH | d IH | d IH | d IH | d IH | d IH
                   | d IH | d IH ]; intros acc;
    cbn [NilEmpty.string_of_uint list_ascii_of_string int_acc uint_val];
    [reflexivity | .. ];
    match goal with
    | |- context [decimal_value ?c] =>
        change (decimal_value c) with (Some (ord c - 48))
    end;
    cbv beta iota; rewrite IH; reflexivity.
Qed.

Lemma uint_val_of_uint_acc (d : Decimal.uint) (acc : positive) :
  Z.pos (Pos.of_uint_acc d acc) = uint_val (Z.pos acc) d.
Proof.
  revert acc.
  induction d as [ | d IH | d IH | d IH | d IH | d IH | d IH | d IH | d IH
                   | d IH | d IH ]; intros acc;
    cbn [Pos.of_uint_acc uint_val]; [reflexivity | .. ];
    rewrite IH; f_equal; lia.
Qed.

Lemma uint_val_of_uint (d : Decimal.uint) :
  Z.of_N (Pos.of_uint d) = uint_val 0 d.
Proof.
  induction d as [ | d IH | d IH | d IH | d IH | d IH | d IH | d IH | d IH
                   | d IH | d IH ];
    cbn [Pos.of_uint uint_val]; [reflexivity | exact IH | .. ];
    cbn [Z.of_N]; rewrite uint_val_of_uint_acc; reflexivity.
Qed.

Lemma string_of_uint_decimal (d : Decimal.uint) :
  forallb isdecimal_char (chars (NilEmpty.string_of_uint d)) = true.
Proof.
  unfold chars.
  induction d as [ | d IH | d IH | d IH | d IH | d IH | d IH | d IH | d IH
                   | d IH | d IH ];
    cbn [NilEmpty.string_of_uint list_ascii_of_string forallb];
    [reflexivity | .. ]; rewrite IH; reflexivity.
Qed.

(** [str(n)] of a number that is not negative is read back by [int]. *)
Lemma int_str_int (n : Z) :
  0 <= n -> isdecimal (str_int n) = true /\ int (str_int n) = Ok n.
Proof.
  intros Hn. destruct n as [ | p | p]; [split; reflexivity | | lia].
  unfold str_int. cbn [Z.to_int NilZero.string_of_int].
  pose proof (DecimalPos.Unsigned.of_to p) as Hp.
  assert (Hv : uint_val 0 (Pos.to_uint p) = Z.pos p).
  { rewrite <- uint_val_of_uint, Hp. reflexivity. }
  pose proof (int_acc_string_of_uint (Pos.to_uint p) 0) as Hi.
  pose proof (string_of_uint_decimal (Pos.to_uint p)) as Hd.
  rewrite Hv in Hi.
  unfold NilZero.string_of_uint.
  destruct (Pos.to_uint p) as [ | d | d | d | d | d | d | d | d | d | d ]
    eqn:E; [discriminate Hp | .. ];
    (split;
     [ unfold isdecimal; rewrite Hd; reflexivity
     | unfold int;
       destruct (chars (NilEmpty.string_of_uint _)) as [ | c l] eqn:El;
       [ discriminate El | rewrite Hi; reflexivity ] ]).
Qed.

(** X4. A [content-length] header that holds [str(n)] for a number [n]
    that is not negative is read back as [n]. *)
Theorem get_response_size_reads_str (r : HTTPResponse.t) (n : Z) :
  0 <= n ->
  dict_get "content-length" (HTTPResponse.headers r) = Some (str_int n) ->
  HTTPResponse.get_response_size r = Ok n.
Proof.
  intros Hn Hget. destruct (int_str_int n Hn) as [Hd Hi].
  destruct (get_response_size_decimal r (str_int n) Hget Hd) as [z [Hz Hr]].
  rewrite Hi in Hz. injection Hz as <-. exact Hr.
Qed.

Lemma get_response_size_reads_str_witness :
  HTTPResponse.get_response_size sized_response = Ok 1234.
Proof.
  apply (get_response_size_reads_str sized_response 1234).
  - lia.
  - reflexivity.
Defined.

(** X5. [get_response_size] never returns a negative number, and the only
    exception it raises is [ValueError]. *)
Theorem get_response_size_bounds (r : HTTPResponse.t) :
  match HTTPResponse.get_response_size r with
  | Ok z => 0 <= z
  | Raise e => exists msg, e = ValueError msg
  end.
Proof.
  destruct (get_response_size_cases r) as [[z [Hz Hpos]] | [s [_ [_ [_ Hr]]]]].
  - rewrite Hz. exact Hpos.
  - rewrite Hr. eexists. reflexivity.
Qed.

(** ** [to_str] *)

Lemma redirect_to_str_returns (r : HTTPResponse.t) :
  HTTPResponse.is_redirect r = true ->
  exists text, HTTPResponse.to_str r = (Ok text, []).
Proof.
  intros H. unfold HTTPResponse.to_str. rewrite H.
  eexists. reflexivity.
Qed.

Lemma to_str_outside_redirect (r : HTTPResponse.t) :
  HTTPResponse.is_redirect r = false ->
  HTTPResponse.to_str r
  = (Ok (HTTPResponse.to_str_head r +++ body_text r),
     [HTTPResponse.Call_get_body]).
Proof.
  intros H. unfold HTTPResponse.to_str, HTTPResponse.get_body, body_text.
  rewrite H.
  destruct (HTTPResponse.body_error r) as [[ | c m] | ];
    destruct (HTTPResponse.body r) as [b | ]; reflexivity.
Qed.

(** X6. For a status outside [300, 400), [to_str] calls [get_body] once and
    never raises: after the head it writes the stored error when one is
    set, even if a body is stored too; the note that the body is not
    available when neither is there; and the literal of the body
    otherwise. *)
Theorem to_str_renders_body_or_error (r : HTTPResponse.t) :
  HTTPResponse.is_redirect r = false ->
  HTTPResponse.to_str r
  = (Ok (HTTPResponse.to_str_head r +++ body_text r),
     [HTTPResponse.Call_get_body]).
Proof. apply to_str_outside_redirect. Qed.

Lemma to_str_renders_body_or_error_witness :
  snd (HTTPResponse.to_str failed_response) = [HTTPResponse.Call_get_body]
  /\ body_text failed_response
     = "[Error getting response body: Network.getResponseBody failed]".
Proof.
  rewrite (to_str_renders_body_or_error failed_response eq_refl).
  split; reflexivity.
Defined.

(** X7. A message always renders: its text is the request, a line feed and
    the rendering of the response, or nothing when there is no response;
    [get_body] is called once for a response outside the redirect statuses
    and not at all otherwise. *)
Theorem message_to_str_returns (m : HTTPMessage.HTTPMessage) :
  exists resp_str,
    HTTPMessage.to_str m
    = (Ok (HTTPRequest.__str__ (HTTPMessage.request m) +++ LF +++ resp_str),
       match HTTPMessage.response m with
       | Some r =>
           if HTTPResponse.is_redirect r then []
           else [HTTPResponse.Call_get_body]
       | None => []
       end)
    /\ match HTTPMessage.response m with
       | Some r => fst (HTTPResponse.to_str r) = Ok resp_str
       | None => resp_str = ""
       end.
Proof.
  unfold HTTPMessage.to_str.
  destruct (HTTPMessage.response m) as [r | ].
  - destruct (HTTPResponse.is_redirect r) eqn:E.
    + destruct (redirect_to_str_returns r E) as [text Ht].
      rewrite Ht. exists text. split; reflexivity.
    + rewrite (to_str_outside_redirect r E).
      eexists. split; reflexivity.
  - exists "". split; reflexivity.
Qed.

(** ** The durable form, for every status *)

Lemma response_any_round_trip (r : HTTPResponse.t) (size : Z) :
  HTTPResponse.get_response_size r = Ok size ->
  exists j, HTTPResponse.to_json r = Ok j
            /\ truthy j = true
            /\ HTTPResponse.from_json j = Ok (kept_response r).
Proof.
  intros Hsize.
  exists (PDict (base_fields r size ++ body_fields r)).
  split; [apply to_json_shape; exact Hsize | ].
  split; [reflexivity | ].
  rewrite from_json_base.
  unfold body_fields, kept_response, persisted_body, persisted_body_error.
  destruct (HTTPResponse.is_redirect r); [reflexivity | ].
  destruct (HTTPResponse.body_error r) as [[ | c m] | ];
    destruct (HTTPResponse.body r) as [[ | x b] | ]; reflexivity.
Qed.

Lemma message_any_round_trip (m : HTTPMessage.HTTPMessage) :
  (forall r, HTTPMessage.response m = Some r ->
             exists size, HTTPResponse.get_response_size r = Ok size) ->
  exists j, HTTPMessage.to_json m = Ok j
            /\ HTTPMessage.from_json j = Ok (kept_message m).
Proof.
  intros H. destruct m as [rq [r | ]]; unfold HTTPMessage.to_json;
    cbn [HTTPMessage.request HTTPMessage.response].
  - destruct (H r eq_refl) as [size Hsize].
    destruct (response_any_round_trip r size Hsize) as [j [Hj [Ht Hf]]].
    rewrite Hj. cbn [bind dict_set String.eqb Ascii.eqb Bool.eqb].
    eexists. split; [reflexivity | ].
    apply message_from_json_pair; assumption.
  - eexists. split; [reflexivity | ].
    apply message_from_json_single.
Qed.

Lemma messages_any_round_trip (l : list HTTPMessage.HTTPMessage) :
  (forall m r, In m l -> HTTPMessage.response m = Some r ->
               exists size, HTTPResponse.get_response_size r = Ok size) ->
  exists js, mapM HTTPMessage.to_json l = Ok js
             /\ mapM HTTPMessage.from_json js = Ok (map kept_message l).
Proof.
  induction l as [ | m l IH]; intros H.
  - exists []. split; reflexivity.
  - destruct (message_any_round_trip m) as [j [Hj Hf]].
    { intros r Hr. apply (H m r); [left; reflexivity | exact Hr]. }
    destruct IH as [js [Hjs Hfs]].
    { intros m' r Hin Hr. apply (H m' r); [right; exact Hin | exact Hr]. }
    exists (j :: js). cbn [mapM map]. rewrite Hj, Hjs, Hf, Hfs.
    split; reflexivity.
Qed.

Lemma same_exchange_kept (l : list HTTPMessage.HTTPMessage) :
  Forall2 same_exchange l (map kept_message l).
Proof.
  induction l as [ | m l IH]; cbn [map]; constructor; [ | exact IH].
  destruct m as [rq [r | ]]; split; cbn; try reflexivity.
  unfold same_exchange_data, kept_response.
  cbn [HTTPResponse.url HTTPResponse.status HTTPResponse.headers
       HTTPResponse.is_iframe HTTPResponse.body HTTPResponse.body_error].
  do 4 (split; [reflexivity | ]).
  intros E. rewrite E. split; reflexivity.
Qed.

(** X8. Saving a session fails on exactly one ground: [to_json] returns if
    and only if [get_response_size] returns on every response of the
    session, whatever the statuses, bodies and errors. *)
Theorem session_to_json_returns_iff
  (S : HTTPMessageSession.HTTPMessageSession) :
  (exists j, HTTPMessageSession.to_json S = Ok j)
  <-> (forall m r, In m (HTTPMessageSession.messages S) ->
         HTTPMessage.response m = Some r ->
         exists size, HTTPResponse.get_response_size r = Ok size).
Proof.
  split.
  - intros [j Hj]. exact (session_to_json_returns S j Hj).
  - intros H.
    destruct (messages_any_round_trip (HTTPMessageSession.messages S) H)
      as [js [Hjs _]].
    unfold HTTPMessageSession.to_json. rewrite Hjs. eexists. reflexivity.
Qed.

(** X9. Whatever [to_json] returns for a session, [from_json] loads: the
    name, the number and the order of the messages and every request come
    back as they were; a message has a response exactly when it had one,
    with the same url, status, headers and is_iframe; and a response with
    a status in [300, 400) comes back with neither body nor body error. *)
Theorem saved_session_loads (S : HTTPMessageSession.HTTPMessageSession)
  (j : pyval) :
  HTTPMessageSession.to_json S = Ok j ->
  exists S',
    HTTPMessageSession.from_json j = Ok S'
    /\ HTTPMessageSession.name S' = HTTPMessageSession.name S
    /\ List.length (HTTPMessageSession.messages S')
       = List.length (HTTPMessageSession.messages S)
    /\ Forall2 same_exchange
         (HTTPMessageSession.messages S) (HTTPMessageSession.messages S').
Proof.
  intros Hj.
  destruct (messages_any_round_trip (HTTPMessageSession.messages S)
              (session_to_json_returns S j Hj)) as [js [Hjs Hfs]].
  unfold HTTPMessageSession.to_json in Hj. rewrite Hjs in Hj.
  cbn [bind] in Hj. injection Hj as <-.
  exists {| HTTPMessageSession.messages :=
              map kept_message (HTTPMessageSession.messages S);
            HTTPMessageSession.name := HTTPMessageSession.name S |}.
  split.
  { apply session_from_json_messages. exact Hfs. }
  cbn [HTTPMessageSession.name HTTPMessageSession.messages].
  split; [reflexivity | ].
  split; [apply List.length_map | apply same_exchange_kept].
Qed.

Lemma saved_session_loads_witness :
  exists j S',
    HTTPMessageSession.to_json mixed_session = Ok j
    /\ HTTPMessageSession.from_json j = Ok S'
    /\ List.length (HTTPMessageSession.messages S') = 3%nat.
Proof.
  destruct (HTTPMessageSession.to_json mixed_session) as [j | e] eqn:E;
    [ | vm_compute in E; discriminate E].
  destruct (saved_session_loads mixed_session j E) as [S' [Hf [_ [Hl _]]]].
  exists j, S'. split; [reflexivity | split; [exact Hf | exact Hl]].
Defined.

(** X10. No body survives the durable form byte for byte: when a response
    with a body is written by [to_json] and read by [from_json], the body
    that comes back is never the body that was stored. *)
Theorem body_never_restored (r r' : HTTPResponse.t) (b : bytes) (j : pyval) :
  HTTPResponse.body r = Some b ->
  HTTPResponse.to_json r = Ok j ->
  HTTPResponse.from_json j = Ok r' ->
  HTTPResponse.body r' <> Some b.
Proof.
  intros Hb Hj Hf.
  assert (Hs : exists size, HTTPResponse.get_response_size r = Ok size)
    by (apply to_json_returns_iff; exists j; exact Hj).
  destruct Hs as [size Hsize].
  destruct (response_any_round_trip r size Hsize) as [j' [Hj' [_ Hf']]].
  rewrite Hj in Hj'. injection Hj' as <-.
  rewrite Hf in Hf'. injection Hf' as ->.
  unfold kept_response. cbn [HTTPResponse.body].
  destruct (HTTPResponse.is_redirect r); [discriminate | ].
  apply persisted_body_differs. exact Hb.
Qed.

Lemma body_never_restored_witness :
  exists j r',
    HTTPResponse.to_json hi_response = Ok j
    /\ HTTPResponse.from_json j = Ok r'
    /\ HTTPResponse.body r' <> Some [x68; x69].
Proof.
  destruct (HTTPResponse.to_json hi_response) as [j | e] eqn:Ej;
    [ | vm_compute in Ej; discriminate Ej].
  destruct (HTTPResponse.from_json j) as [r' | e] eqn:Ef.
  - exists j, r'. split; [reflexivity | split; [exact Ef | ]].
    exact (body_never_restored hi_response r' [x68; x69] j eq_refl Ej Ef).
  - exfalso. vm_compute in Ej. injection Ej as <-.
    vm_compute in Ef. discriminate Ef.
Defined.

(** ** Loading documents that [to_json] did not write *)

(** X11. [HTTPResponse.from_json] on a document that is not a dictionary
    raises [TypeError]. On a dictionary it asks for "url", "status",
    "headers" and "is_iframe" in that order, and raises [KeyError] for the
    first of them that is missing, whatever the dictionary holds under the
    other keys, values of another type than the annotated one included. *)
Theorem response_from_json_requires (data : pyval) :
  match data with
  | PDict d =>
      (dict_get "url" d = None ->
       HTTPResponse.from_json data = Raise (KeyError "url"))
      /\ (dict_get "url" d <> None ->
          dict_get "status" d = None ->
          HTTPResponse.from_json data = Raise (KeyError "status"))
      /\ (dict_get "url" d <> None ->
          dict_get "status" d <> None ->
          dict_get "headers" d = None ->
          HTTPResponse.from_json data = Raise (KeyError "headers"))
      /\ (dict_get "url" d <> None ->
          dict_get "status" d <> None ->
          dict_get "headers" d <> None ->
          dict_get "is_iframe" d = None ->
          HTTPResponse.from_json data = Raise (KeyError "is_iframe"))
  | _ => exists msg, HTTPResponse.from_json data = Raise (TypeError msg)
  end.
Proof.
  destruct data as [ | b | z | t | l | d];
    try (eexists; reflexivity).
  unfold HTTPResponse.from_json, HTTPResponse.from_json_untyped.
  cbn [getitem].
  destruct (dict_get "url" d) as [vu | ];
    destruct (dict_get "status" d) as [vs | ];
    destruct (dict_get "headers" d) as [vh | ];
    destruct (dict_get "is_iframe" d) as [vi | ];
    repeat split; intros; try congruence; reflexivity.
Qed.

Lemma response_from_json_requires_witness :
  HTTPResponse.from_json (PDict [("status", PInt 200)])
  = Raise (KeyError "url")
  /\ HTTPResponse.from_json (PDict [("url", PInt 5)])
     = Raise (KeyError "status").
Proof.
  split.
  - exact (proj1 (response_from_json_requires
                    (PDict [("status", PInt 200)])) eq_refl).
  - refine (proj1 (proj2 (response_from_json_requires
                    (PDict [("url", PInt 5)]))) _ eq_refl).
    discriminate.
Defined.

(** X12. A response document that has its four fields and a "body" that is
    not a text does not load: [from_json] raises [AttributeError], from
    the call of [encode] on the value. *)
Theorem response_from_json_body_not_text (d : dict pyval)
  (u : string) (s : Z) (h : dict string) (i : bool) (v : pyval) :
  dict_get "url" d = Some (PStr u) ->
  dict_get "status" d = Some (PInt s) ->
  dict_get "headers" d = Some (of_str_dict h) ->
  dict_get "is_iframe" d = Some (PBool i) ->
  dict_get "body" d = Some v ->
  (forall txt, v <> PStr txt) ->
  exists msg, HTTPResponse.from_json (PDict d) = Raise (AttributeError msg).
Proof.
  intros Hu Hs Hh Hi Hb Hv.
  unfold HTTPResponse.from_json, HTTPResponse.from_json_untyped.
  cbn [getitem get contains]. unfold dict_contains.
  rewrite Hu, Hs, Hh, Hi, Hb. cbn [bind].
  destruct v as [ | b | z | t | l | d']; try (eexists; reflexivity).
  exfalso. apply (Hv t). reflexivity.
Qed.

Lemma response_from_json_body_not_text_witness :
  exists msg,
    HTTPResponse.from_json (PDict number_body_fields)
    = Raise (AttributeError msg).
Proof.
  apply (response_from_json_body_not_text number_body_fields
           "http://example.test/" 200 [("content-length", "2")] false
           (PInt 7)); try reflexivity.
  intros txt. discriminate.
Defined.

(** X13. A message document whose "response" is missing, [null], an empty
    dictionary or any other false value loads as a message without a
    response, provided its request loads. *)
Theorem message_from_json_without_response (d : dict pyval)
  (v : pyval) (rq : HTTPRequest.t) :
  dict_get "request" d = Some v ->
  HTTPRequest.from_json v = Ok rq ->
  match dict_get "response" d with
  | Some x => truthy x = false
  | None => True
  end ->
  HTTPMessage.from_json (PDict d)
  = Ok {| HTTPMessage.request := rq; HTTPMessage.response := None |}.
Proof.
  intros Hr Hq Hresp.
  unfold HTTPRequest.from_json in Hq. apply bind_Ok in Hq.
  destruct Hq as [uq [Hq1 Hq2]].
  unfold HTTPMessage.from_json, HTTPMessage.from_json_untyped,
    HTTPMessage.typed.
  cbn [getitem get]. rewrite Hr. cbn [bind]. rewrite Hq1. cbn [bind].
  destruct (dict_get "response" d) as [x | ].
  - rewrite Hresp.
    cbn [bind HTTPMessage.u_request HTTPMessage.u_response].
    rewrite Hq2. reflexivity.
  - cbn [bind HTTPMessage.u_request HTTPMessage.u_response].
    rewrite Hq2. reflexivity.
Qed.

Lemma message_from_json_without_response_witness :
  HTTPMessage.from_json null_response_document
  = Ok {| HTTPMessage.request := redirected_request;
          HTTPMessage.response := None |}.
Proof.
  apply (message_from_json_without_response _
           (HTTPRequest.to_json redirected_request)).
  - reflexivity.
  - apply request_round_trip.
  - reflexivity.
Defined.

(** X14. A response document that has its four fields, no "body" and no
    "body_error" (or [null] for it) loads as a response with neither body
    nor error, on which [get_body] then raises "Response body not
    available". *)
Theorem response_from_json_optional_keys (d : dict pyval)
  (u : string) (s : Z) (h : dict string) (i : bool) :
  dict_get "url" d = Some (PStr u) ->
  dict_get "status" d = Some (PInt s) ->
  dict_get "headers" d = Some (of_str_dict h) ->
  dict_get "is_iframe" d = Some (PBool i) ->
  dict_get "body" d = None ->
  dict_get "body_error" d = None \/ dict_get "body_error" d = Some PNone ->
  exists r,
    HTTPResponse.from_json (PDict d) = Ok r
    /\ r = {| HTTPResponse.url := u; HTTPResponse.status := s;
              HTTPResponse.headers := h; HTTPResponse.is_iframe := i;
              HTTPResponse.body := None; HTTPResponse.body_error := None |}
    /\ HTTPResponse.get_body r
       = Raise (Exception_ "Response body not available").
Proof.
  intros Hu Hs Hh Hi Hb He. eexists. split; [ | split; [reflexivity | ]].
  - unfold HTTPResponse.from_json, HTTPResponse.from_json_untyped,
      HTTPResponse.typed.
    cbn [getitem get contains]. unfold dict_contains.
    rewrite Hu, Hs, Hh, Hi, Hb.
    cbn [bind as_str as_int as_bool HTTPResponse.u_url HTTPResponse.u_status
         HTTPResponse.u_headers HTTPResponse.u_is_iframe
         HTTPResponse.u_body HTTPResponse.u_body_error].
    rewrite as_str_dict_of_str_dict. cbn [bind].
    destruct He as [He | He]; rewrite He; reflexivity.
  - reflexivity.
Qed.

Lemma response_from_json_optional_keys_witness :
  exists r,
    HTTPResponse.from_json
      (PDict [ ("url", PStr "http://example.test/");
               ("status", PInt 204);
               ("headers", of_str_dict []);
               ("is_iframe", PBool false);
               ("body_error", PNone) ]) = Ok r
    /\ HTTPResponse.body r = None.
Proof.
  destruct (response_from_json_optional_keys
              [ ("url", PStr "http://example.test/");
                ("status", PInt 204);
                ("headers", of_str_dict []);
                ("is_iframe", PBool false);
                ("body_error", PNone) ]
              "http://example.test/" 204 [] false
              eq_refl eq_refl eq_refl eq_refl eq_refl (or_intror eq_refl))
    as [r [Hr [Hv _]]].
  exists r. split; [exact Hr | rewrite Hv; reflexivity].
Defined.

End HttpExtra.

(* ================================================================== *)
(** * browser.py: acquisition, strategies and teardown *)
(* ================================================================== *)

Module BrowserExtra.
Import BrowserConfig Browser Manager Engines PyFacts.

Section WithEngine.

Variables Playwright PlaywrightBrowser World : Type.
Variable engine : Engine Playwright PlaywrightBrowser World.

Abbreviation State := (State Playwright PlaywrightBrowser World).
Abbreviation M := (M Playwright PlaywrightBrowser World).
Abbreviation mbind := (mbind Playwright PlaywrightBrowser World).
Abbreviation ret := (ret Playwright PlaywrightBrowser World).
Abbreviation raise := (raise Playwright PlaywrightBrowser World).
Abbreviation get_self := (get_self Playwright PlaywrightBrowser World).
Abbreviation put_self := (put_self Playwright PlaywrightBrowser World).
Abbreviation try_except := (try_except Playwright PlaywrightBrowser World).
Abbreviation try_except_ConnectionError :=
  (try_except_ConnectionError Playwright PlaywrightBrowser World).

(** ** Computations that reach the outside only *)

Lemma engine_only_ret {A} (a : A) : engine_only (ret a).
Proof. intros st. split; [reflexivity | exists []; cbn; symmetry; apply app_nil_r]. Qed.

Lemma engine_only_raise {A} (e : exn) : engine_only (raise e : M A).
Proof. intros st. split; [reflexivity | exists []; cbn; symmetry; apply app_nil_r]. Qed.

Lemma engine_only_perform {A}
  (c : engine_call Playwright PlaywrightBrowser)
  (f : World -> result A * World) :
  engine_only (perform c f).
Proof.
  intros st. unfold perform. destruct (f (world st)) as [r w].
  split; [reflexivity | exists [c]; reflexivity].
Qed.

Lemma engine_only_mbind {A B} (m : M A) (k : A -> M B) :
  engine_only m -> (forall a, engine_only (k a)) -> engine_only (mbind m k).
Proof.
  intros Hm Hk st. unfold Browser.mbind.
  destruct (Hm st) as [Hs [l Hl]].
  destruct (m st) as [[a | e] st1]; cbn [snd] in *.
  - destruct (Hk a st1) as [Hs' [l' Hl']].
    split; [congruence | ].
    exists (l ++ l'). rewrite Hl', Hl. symmetry. apply app_assoc.
  - split; [exact Hs | exists l; exact Hl].
Qed.

Lemma engine_only_get_self {B} (k : Browser Playwright PlaywrightBrowser -> M B) :
  (forall b, engine_only (k b)) -> engine_only (mbind get_self k).
Proof.
  intros Hk. apply engine_only_mbind; [ | exact Hk].
  intros st. split; [reflexivity | exists []; cbn; symmetry; apply app_nil_r].
Qed.

Lemma engine_only_try_except {A} (m : M A) (h : exn -> M A) :
  engine_only m -> (forall e, engine_only (h e)) ->
  engine_only (try_except m h).
Proof.
  intros Hm Hh st. unfold Browser.try_except.
  destruct (Hm st) as [Hs [l Hl]].
  destruct (m st) as [[a | e] st1]; cbn [snd] in *.
  - split; [exact Hs | exists l; exact Hl].
  - destruct (is_Exception e).
    + destruct (Hh e st1) as [Hs' [l' Hl']].
      split; [congruence | ].
      exists (l ++ l'). rewrite Hl', Hl. symmetry. apply app_assoc.
    + split; [exact Hs | exists l; exact Hl].
Qed.

Lemma engine_only_try_except_ConnectionError {A} (m h : M A) :
  engine_only m -> engine_only h ->
  engine_only (try_except_ConnectionError m h).
Proof.
  intros Hm Hh st. unfold Browser.try_except_ConnectionError.
  destruct (Hm st) as [Hs [l Hl]].
  destruct (m st) as [[a | e] st1]; cbn [snd] in *.
  - split; [exact Hs | exists l; exact Hl].
  - destruct (is_requests_ConnectionError e).
    + destruct (Hh st1) as [Hs' [l' Hl']].
      split; [congruence | ].
      exists (l ++ l'). rewrite Hl', Hl. symmetry. apply app_assoc.
    + split; [exact Hs | exists l; exact Hl].
Qed.

Lemma engine_only_poll (n : nat) : engine_only (poll engine n).
Proof.
  induction n as [ | n IH]; cbn [poll].
  - apply engine_only_ret.
  - apply engine_only_mbind.
    + apply engine_only_try_except_ConnectionError.
      * apply engine_only_mbind; [apply engine_only_perform | ].
        intros code. apply engine_only_ret.
      * apply engine_only_ret.
    + intros [ | ]; [apply engine_only_ret | ].
      apply engine_only_mbind; [apply engine_only_perform | ].
      intros _. exact IH.
Qed.

Lemma engine_only_setup_cdp (p : Playwright) :
  engine_only (_setup_cdp engine p).
Proof.
  unfold _setup_cdp. apply engine_only_get_self. intros b.
  destruct (if_true (cdp_url (config b)));
    [apply engine_only_perform | apply engine_only_raise].
Qed.

Lemma engine_only_setup_wss (p : Playwright) :
  engine_only (_setup_wss engine p).
Proof.
  unfold _setup_wss. apply engine_only_get_self. intros b.
  destruct (if_true (wss_url (config b)));
    [apply engine_only_perform | apply engine_only_raise].
Qed.

Lemma engine_only_setup_standard_browser (p : Playwright) :
  engine_only (_setup_standard_browser engine p).
Proof.
  unfold _setup_standard_browser. apply engine_only_get_self. intros b.
  apply engine_only_perform.
Qed.

Lemma engine_only_setup_browser_with_instance (p : Playwright) :
  engine_only (_setup_browser_with_instance engine p).
Proof.
  unfold _setup_browser_with_instance. apply engine_only_get_self. intros b.
  destruct (if_true (chrome_instance_path (config b))) as [path | ];
    [ | apply engine_only_raise].
  apply engine_only_mbind.
  - apply engine_only_try_except_ConnectionError; [ | apply engine_only_ret].
    apply engine_only_mbind; [apply engine_only_perform | ].
    intros code. destruct (code =? 200); [ | apply engine_only_ret].
    apply engine_only_mbind; [apply engine_only_perform | ].
    intros h. apply engine_only_ret.
  - intros [h | ]; [apply engine_only_ret | ].
    apply engine_only_mbind; [apply engine_only_perform | ].
    intros _. apply engine_only_mbind; [apply engine_only_poll | ].
    intros _. apply engine_only_try_except; [apply engine_only_perform | ].
    intros e. apply engine_only_raise.
Qed.

Lemma engine_only_setup_browser (p : Playwright) :
  engine_only (_setup_browser engine p).
Proof.
  unfold _setup_browser.
  apply engine_only_try_except; [ | intros e; apply engine_only_raise].
  apply engine_only_get_self. intros b.
  destruct (truthy_opt_str (cdp_url (config b)));
    [apply engine_only_setup_cdp | ].
  destruct (truthy_opt_str (wss_url (config b)));
    [apply engine_only_setup_wss | ].
  destruct (truthy_opt_str (chrome_instance_path (config b)));
    [apply engine_only_setup_browser_with_instance
    | apply engine_only_setup_standard_browser].
Qed.

(** ** [get_playwright_browser] and [_init] *)

(** X15. What a call of [get_playwright_browser] leaves behind: when it
    returns a handle, that handle is stored, the configuration is the one
    it had, and a manager that had no handle now has a driver; when it
    raises, in [start] or in the strategy, the [Browser] object is exactly
    as before, so no handle and no driver are kept from the failed
    attempt. *)
Theorem get_playwright_browser_outcome (st : State) :
  match get_playwright_browser engine st with
  | (Ok h, st') =>
      playwright_browser (self st') = Some h
      /\ config (self st') = config (self st)
      /\ (playwright_browser (self st) = None ->
          exists p, playwright (self st') = Some p)
  | (Raise e, st') => self st' = self st
  end.
Proof.
  unfold get_playwright_browser, Browser.mbind, Browser.get_self.
  destruct (playwright_browser (self st)) as [h0 | ] eqn:E.
  - cbn. split; [exact E | split; [reflexivity | discriminate]].
  - unfold _init, Browser.mbind, Browser.get_self, Browser.put_self,
      Browser.ret.
    pose proof (engine_only_perform Call_async_playwright_start
                  (async_playwright_start engine) st) as [Hs _].
    destruct (perform Call_async_playwright_start
                (async_playwright_start engine) st) as [[p | e] st1];
      cbn [snd] in Hs; [ | exact Hs].
    pose proof (engine_only_setup_browser p st1) as [Hs2 _].
    destruct (_setup_browser engine p st1) as [[b | e] st2];
      cbn [snd] in Hs2; [ | congruence].
    cbn. rewrite Hs2, Hs.
    split; [reflexivity | split; [reflexivity | ]].
    intros _. exists p. reflexivity.
Qed.


(** ** The waiting loop *)

(** X17. Whatever the outside answers, the loop [poll n] makes at most [n]
    probes of the debug port and at most [n] pauses, makes no other call,
    and leaves the [Browser] object as it was. *)
Theorem poll_is_bounded (n : nat) (st : State) :
  self (snd (poll engine n st)) = self st
  /\ exists l,
       trace (snd (poll engine n st)) = trace st ++ l
       /\ forallb (fun c => is_probe c || is_sleep c) l = true
       /\ (List.length (filter is_probe l) <= n)%nat
       /\ (List.length (filter is_sleep l) <= n)%nat.
Proof.
  split; [apply engine_only_poll | ].
  revert st. induction n as [ | n IH]; intros st; cbn [poll].
  - exists []. cbn. rewrite app_nil_r.
    split; [reflexivity | split; [reflexivity | split; lia]].
  - unfold Browser.mbind at 1, Browser.try_except_ConnectionError,
      Browser.mbind at 1, perform at 1, Browser.ret.
    destruct (requests_get engine debug_version_url 2 (world st))
      as [[code | e] w].
    + cbn [fst snd]. destruct (code =? 200).
      * exists [Call_requests_get debug_version_url 2].
        split; [reflexivity | split; [reflexivity | cbn; split; lia]].
      * unfold Browser.mbind, perform at 1. cbn [world self trace].
        destruct (sleep engine 1 w) as [[u | e] w'].
        -- match goal with
           | |- context [poll engine n ?s] =>
               destruct (IH s) as [l [Hl [Hf [Hp Hs]]]]
           end.
           cbn [trace] in Hl.
           exists (Call_requests_get debug_version_url 2 :: Call_sleep 1 :: l).
           split; [rewrite Hl, <- !app_assoc; reflexivity | ].
           split; [cbn; exact Hf | cbn; split; lia].
        -- exists [Call_requests_get debug_version_url 2; Call_sleep 1].
           split; [cbn; rewrite <- !app_assoc; reflexivity | ].
           split; [reflexivity | cbn; split; lia].
    + destruct (is_requests_ConnectionError e).
      * cbn [fst snd]. unfold Browser.mbind, perform at 1.
        cbn [world self trace].
        destruct (sleep engine 1 w) as [[u | e'] w'].
        -- match goal with
           | |- context [poll engine n ?s] =>
               destruct (IH s) as [l [Hl [Hf [Hp Hs]]]]
           end.
           cbn [trace] in Hl.
           exists (Call_requests_get debug_version_url 2 :: Call_sleep 1 :: l).
           split; [rewrite Hl, <- !app_assoc; reflexivity | ].
           split; [cbn; exact Hf | cbn; split; lia].
        -- exists [Call_requests_get debug_version_url 2; Call_sleep 1].
           split; [cbn; rewrite <- !app_assoc; reflexivity | ].
           split; [reflexivity | cbn; split; lia].
      * exists [Call_requests_get debug_version_url 2].
        split; [reflexivity | split; [reflexivity | cbn; split; lia]].
Qed.

Lemma poll_unanswered (n : nat) (st : State) :
  port_closed engine -> pauses_and_spawns engine ->
  exists w,
    poll engine n st
    = (Ok tt, {| self := self st; world := w;
                 trace := trace st ++ unanswered_rounds n |}).
Proof.
  intros Hport [Hsleep _]. revert st.
  induction n as [ | n IH]; intros st; cbn [poll unanswered_rounds].
  - exists (world st). rewrite app_nil_r. destruct st; reflexivity.
  - unfold Browser.mbind at 1, Browser.try_except_ConnectionError,
      Browser.mbind at 1, perform at 1, Browser.ret.
    destruct (Hport (world st)) as [msg [w1 E1]]. rewrite E1.
    cbn [is_requests_ConnectionError].
    unfold Browser.mbind, perform at 1. cbn [world self trace].
    destruct (Hsleep w1) as [w2 E2]. rewrite E2.
    match goal with
    | |- context [poll engine n ?s] => destruct (IH s) as [w3 E3]
    end.
    exists w3. rewrite E3. cbn [self trace].
    rewrite <- !app_assoc. reflexivity.
Qed.

(** ** The local instance *)

(** X18. With a local instance path set and the debug port answering 200
    to the first probe, [_setup_browser_with_instance] spawns nothing and
    does not wait: it makes the probe and one connection over CDP to
    [http://localhost:9222], without the proxy settings even when the
    configuration has some, and returns the handle of that connection. *)
Theorem instance_is_reused (p : Playwright) (st : State)
  (w1 w2 : World) (h : PlaywrightBrowser) :
  truthy_opt_str (chrome_instance_path (config (self st))) = true ->
  requests_get engine debug_version_url 2 (world st) = (Ok 200, w1) ->
  connect_over_cdp engine p debug_endpoint 20000 None w1 = (Ok h, w2) ->
  _setup_browser_with_instance engine p st
  = (Ok h,
     {| self := self st;
        world := w2;
        trace := trace st
                 ++ [ Call_requests_get debug_version_url 2;
                      Call_connect_over_cdp p debug_endpoint 20000 None ] |}).
Proof.
  intros Hpath Hget Hconn.
  unfold _setup_browser_with_instance, Browser.mbind at 1, Browser.get_self.
  rewrite (if_true_truthy _ Hpath).
  destruct (chrome_instance_path (config (self st))) as [path | ];
    [ | discriminate].
  unfold Browser.mbind at 1, Browser.try_except_ConnectionError,
    Browser.mbind at 1, perform at 1.
  rewrite Hget. cbn [Z.eqb Pos.eqb].
  unfold Browser.mbind, perform, Browser.ret. cbn [world self trace].
  rewrite Hconn. cbn [self trace]. rewrite <- app_assoc. reflexivity.
Qed.

(** X19. With a local instance path set, a debug port that never answers
    and pauses and spawns that go through, [_setup_browser_with_instance]
    makes one probe, spawns the instance once, with the path first, the
    flag [--remote-debugging-port=9222] second and the extra Chromium
    arguments last (and nothing in between when neither proxy server,
    bypass list, certificate option nor user data directory is set), then
    probes and pauses exactly ten times each, and only then makes its one
    connection over CDP, with the proxy settings of the configuration. A
    connection that fails with an [Exception] comes out as
    [RuntimeError]. *)
Theorem instance_is_spawned_and_awaited (p : Playwright) (st : State)
  (path : string) :
  chrome_instance_path (config (self st)) = Some path -> path <> "" ->
  port_closed engine -> pauses_and_spawns engine ->
  exists flags w,
    let cmd_args :=
      [path; "--remote-debugging-port=9222"] ++ flags
      ++ extra_chromium_args (config (self st)) in
    let connection :=
      connect_over_cdp engine p debug_endpoint 20000
        (proxy (config (self st))) w in
    trace (snd (_setup_browser_with_instance engine p st))
    = trace st
      ++ [Call_requests_get debug_version_url 2; Call_Popen cmd_args]
      ++ unanswered_rounds 10
      ++ [Call_connect_over_cdp p debug_endpoint 20000
            (proxy (config (self st)))]
    /\ (truthy_opt_str (proxy_server (config (self st))) = false ->
        truthy_opt_str (proxy_bypass (config (self st))) = false ->
        ignore_https_errors (config (self st)) = false ->
        truthy_opt_str (proxy_ca_cert (config (self st))) = false ->
        truthy_opt_str (user_data_dir (config (self st))) = false ->
        flags = [])
    /\ match fst connection with
       | Ok h => fst (_setup_browser_with_instance engine p st) = Ok h
       | Raise e =>
           if is_Exception e
           then exists msg,
                  fst (_setup_browser_with_instance engine p st)
                  = Raise (RuntimeError msg)
           else fst (_setup_browser_with_instance engine p st) = Raise e
       end.
Proof.
  intros Hpath Hne Hport Hps.
  destruct (_setup_browser_with_instance engine p st) as [r st'] eqn:Erun.
  revert Erun.
  unfold _setup_browser_with_instance, Browser.mbind at 1, Browser.get_self.
  rewrite Hpath.
  destruct path as [ | c0 path0]; [congruence | ].
  cbn [if_true].
  unfold Browser.mbind at 1, Browser.try_except_ConnectionError,
    Browser.mbind at 1, perform at 1.
  destruct (Hport (world st)) as [msg [w1 E1]]. rewrite E1.
  cbn [is_requests_ConnectionError]. unfold Browser.ret at 1.
  unfold Browser.mbind at 1, perform at 1. cbn [world self trace].
  match goal with
  | |- context [Popen engine ([_; _] ++ ?f ++ _) _] => set (flags := f)
  end.
  destruct Hps as [Hsleep Hpopen].
  match goal with
  | |- context [Popen engine ?a w1] => destruct (Hpopen a w1) as [w2 E2]
  end.
  rewrite E2.
  unfold Browser.mbind at 1.
  match goal with
  | |- context [poll engine 10 ?s] =>
      destruct (poll_unanswered 10 s Hport (conj Hsleep Hpopen)) as [w3 E3]
  end.
  rewrite E3. cbn [self trace world].
  unfold Browser.try_except, perform. cbn [world self trace].
  intros Erun. exists flags, w3. cbv zeta.
  assert (Hflags :
    truthy_opt_str (proxy_server (config (self st))) = false ->
    truthy_opt_str (proxy_bypass (config (self st))) = false ->
    ignore_https_errors (config (self st)) = false ->
    truthy_opt_str (proxy_ca_cert (config (self st))) = false ->
    truthy_opt_str (user_data_dir (config (self st))) = false ->
    flags = []).
  { intros H1 H2 H3 H4 H5. subst flags. unfold flag_if.
    rewrite (if_true_falsy _ H1), (if_true_falsy _ H2), H3,
      (if_true_falsy _ H4), (if_true_falsy _ H5). reflexivity. }
  destruct (connect_over_cdp engine p debug_endpoint 20000
              (proxy (config (self st))) w3) as [[h | e] w4];
    cbn [fst snd] in *.
  - injection Erun as <- <-. cbn [trace].
    split; [rewrite <- !app_assoc; reflexivity | ].
    split; [exact Hflags | reflexivity].
  - destruct (is_Exception e); cbn [Browser.raise] in Erun;
      injection Erun as <- <-; cbn [trace].
    + split; [rewrite <- !app_assoc; reflexivity | ].
      split; [exact Hflags | eexists; reflexivity].
    + split; [rewrite <- !app_assoc; reflexivity | ].
      split; [exact Hflags | reflexivity].
Qed.

(** ** The other strategies *)

(** X20. A strategy called without its own setting raises [ValueError] and
    reaches nothing outside: [_setup_cdp] without a CDP endpoint,
    [_setup_wss] without a WSS endpoint, [_setup_browser_with_instance]
    without an instance path ([None] or the empty text). *)
Theorem strategy_requires_its_setting (p : Playwright) (st : State) :
  (truthy_opt_str (cdp_url (config (self st))) = false ->
   _setup_cdp engine p st = (Raise (ValueError "CDP URL is required"), st))
  /\ (truthy_opt_str (wss_url (config (self st))) = false ->
      _setup_wss engine p st = (Raise (ValueError "WSS URL is required"), st))
  /\ (truthy_opt_str (chrome_instance_path (config (self st))) = false ->
      _setup_browser_with_instance engine p st
      = (Raise (ValueError "Chrome instance path is required"), st)).
Proof.
  repeat split; intros H;
    unfold _setup_cdp, _setup_wss, _setup_browser_with_instance,
      Browser.mbind, Browser.get_self;
    rewrite (if_true_falsy _ H); reflexivity.
Qed.

(** X21. With no endpoint and no instance path set, [_setup_browser] makes
    one call, the launch, with the configured [headless] and proxy
    settings. Its arguments start with [--no-sandbox] and end with the
    extra Chromium arguments; they hold the security flags of the
    manager, [--ignore-certificate-errors] when HTTPS errors are ignored,
    and the user data directory when one is set. *)
Theorem standard_launch_arguments (p : Playwright) (st : State) :
  truthy_opt_str (cdp_url (config (self st))) = false ->
  truthy_opt_str (wss_url (config (self st))) = false ->
  truthy_opt_str (chrome_instance_path (config (self st))) = false ->
  exists args mid,
    _setup_browser engine p st
    = perform
        (Call_launch p (headless (config (self st))) args
           (proxy (config (self st))))
        (launch engine p (headless (config (self st))) args
           (proxy (config (self st))))
        st
    /\ args = "--no-sandbox" :: mid ++ extra_chromium_args (config (self st))
    /\ incl (disable_security_args (self st)) mid
    /\ (ignore_https_errors (config (self st)) = true ->
        In "--ignore-certificate-errors" mid)
    /\ (forall dir, if_true (user_data_dir (config (self st))) = Some dir ->
        In ("--user-data-dir=" +++ dir) mid).
Proof.
  intros Hc Hw Hi.
  rewrite BrowserFacts.setup_browser_unfold, Hc, Hw, Hi.
  unfold _setup_standard_browser, Browser.mbind, Browser.get_self.
  eexists.
  exists ([ "--disable-blink-features=AutomationControlled";
            "--disable-infobars";
            "--disable-background-timer-throttling";
            "--disable-popup-blocking";
            "--disable-backgrounding-occluded-windows";
            "--disable-renderer-backgrounding";
            "--disable-window-activation";
            "--disable-focus-on-load";
            "--no-first-run";
            "--no-default-browser-check";
            "--no-startup-window";
            "--window-position=0,0" ]
          ++ disable_security_args (self st)
          ++ (if ignore_https_errors (config (self st))
              then ["--ignore-certificate-errors"] else [])
          ++ flag_if "--ca-certificates-path="
               (proxy_ca_cert (config (self st)))
          ++ flag_if "--user-data-dir=" (user_data_dir (config (self st)))).
  split; [reflexivity | ].
  split.
  { cbn [app]. rewrite <- !app_assoc. reflexivity. }
  split.
  { intros x Hx. apply in_or_app. right. apply in_or_app. left. exact Hx. }
  split.
  { intros H. rewrite H. apply in_or_app. right. apply in_or_app. right.
    left. reflexivity. }
  intros dir H. unfold flag_if. rewrite H.
  do 4 (apply in_or_app; right). left. reflexivity.
Qed.

(** ** [close] *)

Lemma try_except_swallows {A} (m : M A) (a : A) (st : State) :
  (exists x, fst (try_except m (fun _ => ret a) st) = Ok x)
  \/ (exists e, fst (try_except m (fun _ => ret a) st) = Raise e
                /\ is_Exception e = false).
Proof.
  unfold Browser.try_except.
  destruct (m st) as [[x | e] st1].
  - left. exists x. reflexivity.
  - destruct (is_Exception e) eqn:E.
    + left. exists a. reflexivity.
    + right. exists e. split; [reflexivity | exact E].
Qed.

(** X22. [close] never lets an [Exception] out: it returns, or raises
    something that is not an [Exception] (a cancellation); and on every
    path, failure included, the manager ends with neither handle nor
    driver stored. *)
Theorem close_swallows_exceptions (st : State) :
  (fst (close engine st) = Ok tt
   \/ exists e, fst (close engine st) = Raise e /\ is_Exception e = false)
  /\ playwright_browser (self (snd (close engine st))) = None
  /\ playwright (self (snd (close engine st))) = None.
Proof.
  split; [ | apply BrowserFacts.close_resets].
  unfold close, Browser.try_finally.
  match goal with
  | |- context [let '(r, st') := Browser.try_except _ _ _ ?m ?h st in _] =>
      pose proof (try_except_swallows m tt st) as H;
      destruct (Browser.try_except _ _ _ m h st) as [r st1]
  end.
  cbn [fst] in H.
  unfold Browser.mbind, Browser.get_self, Browser.put_self, perform. cbn.
  destruct H as [[[] H] | [e [H E]]]; rewrite H.
  - left. reflexivity.
  - right. exists e. split; [reflexivity | exact E].
Qed.

(** X23. Without keep-alive, a manager that holds a handle and a driver
    closes the handle first. If that goes through, it stops the driver
    next; if closing the handle raises, the driver is never stopped. Either
    way [gc.collect] is the last call. *)
Theorem close_order (st : State) (h : PlaywrightBrowser) (p : Playwright) :
  _force_keep_browser_alive (config (self st)) = false ->
  playwright_browser (self st) = Some h ->
  playwright (self st) = Some p ->
  trace (snd (close engine st))
  = trace st
    ++ match fst (browser_close engine h (world st)) with
       | Ok _ =>
           [Call_browser_close h; Call_playwright_stop p; Call_gc_collect]
       | Raise _ => [Call_browser_close h; Call_gc_collect]
       end.
Proof.
  intros Hk Hh Hp.
  unfold close, Browser.try_finally, Browser.try_except, Browser.mbind,
    Browser.get_self, Browser.put_self, Browser.ret, perform.
  rewrite Hk, Hh. cbn [negb].
  destruct (browser_close engine h (world st)) as [[u | e] w]; cbn.
  - rewrite Hp. cbn.
    destruct (playwright_stop engine p w) as [[u' | e] w']; cbn.
    + rewrite <- !app_assoc. reflexivity.
    + destruct (is_Exception e); cbn; rewrite <- !app_assoc; reflexivity.
  - destruct (is_Exception e); cbn; rewrite <- !app_assoc; reflexivity.
Qed.

Lemma close_absent (st : State) :
  playwright_browser (self st) = None -> playwright (self st) = None ->
  close engine st
  = (Ok tt, {| self := self st; world := world st;
               trace := trace st ++ [Call_gc_collect] |}).
Proof.
  intros Hh Hp.
  unfold close, Browser.try_finally, Browser.try_except, Browser.mbind,
    Browser.get_self, Browser.put_self, Browser.ret, perform.
  rewrite Hh. destruct (_force_keep_browser_alive (config (self st)));
    cbn; rewrite ?Hp; cbn;
    destruct (self st) as [c pw pb d]; cbn in *; subst; reflexivity.
Qed.

(** X24. [close] can be called twice: whatever the first call met, the
    second one returns, touches nothing in the engine (its one call is
    [gc.collect]) and leaves the manager as the first call left it. *)
Theorem close_twice (st : State) :
  close engine (snd (close engine st))
  = (Ok tt,
     {| self := self (snd (close engine st));
        world := world (snd (close engine st));
        trace := trace (snd (close engine st)) ++ [Call_gc_collect] |}).
Proof.
  destruct (BrowserFacts.close_resets _ _ _ engine st) as [Hh Hp].
  apply close_absent; assumption.
Qed.

End WithEngine.

Lemma get_playwright_browser_outcome_witness :
  self (snd (get_playwright_browser refusing_engine (fresh default_config)))
  = __init__ default_config.
Proof.
  pose proof (get_playwright_browser_outcome nat nat nat refusing_engine
                (fresh default_config)) as H.
  destruct (get_playwright_browser refusing_engine (fresh default_config))
    as [[h | e] st'] eqn:E.
  - vm_compute in E. discriminate E.
  - exact H.
Defined.

Lemma strategy_requires_its_setting_witness :
  _setup_cdp counting_engine 0%nat (fresh default_config)
  = (Raise (ValueError "CDP URL is required"), fresh default_config).
Proof.
  exact (proj1 (strategy_requires_its_setting nat nat nat counting_engine
                  0%nat (fresh default_config)) eq_refl).
Defined.

Lemma standard_launch_arguments_witness :
  exists args mid,
    _setup_browser counting_engine 0%nat (fresh default_config)
    = perform (Call_launch 0%nat false args None)
        (launch counting_engine 0%nat false args None) (fresh default_config)
    /\ args = "--no-sandbox" :: mid ++ [].
Proof.
  destruct (standard_launch_arguments nat nat nat counting_engine 0%nat
              (fresh default_config) eq_refl eq_refl eq_refl)
    as [args [mid [H1 [H2 _]]]].
  exists args, mid. split; [exact H1 | exact H2].
Defined.

Lemma instance_is_reused_witness :
  _setup_browser_with_instance answering_engine 0%nat (fresh instance_config)
  = (Ok 0%nat,
     {| self := __init__ instance_config;
        world := 1%nat;
        trace := [ Call_requests_get debug_version_url 2;
                   Call_connect_over_cdp 0%nat debug_endpoint 20000 None ] |}).
Proof.
  exact (instance_is_reused nat nat nat answering_engine 0%nat
           (fresh instance_config) 0%nat 1%nat 0%nat
           eq_refl eq_refl eq_refl).
Defined.

Lemma instance_is_spawned_and_awaited_witness :
  exists msg,
    fst (_setup_browser_with_instance refusing_engine 0%nat
           (fresh instance_config))
    = Raise (RuntimeError msg).
Proof.
  destruct (instance_is_spawned_and_awaited nat nat nat refusing_engine 0%nat
              (fresh instance_config) "/usr/bin/chromium" eq_refl)
    as [flags [w [_ [_ H]]]].
  - discriminate.
  - intros w. eexists. eexists. reflexivity.
  - split; [intros w | intros args w]; eexists; reflexivity.
  - exact H.
Defined.

Lemma close_order_witness :
  trace (snd (close counting_engine (holding default_config)))
  = [Call_browser_close 7%nat; Call_playwright_stop 3%nat; Call_gc_collect]
  /\ trace (snd (close refusing_engine (holding default_config)))
     = [Call_browser_close 7%nat; Call_gc_collect].
Proof.
  split.
  - exact (close_order nat nat nat counting_engine (holding default_config)
             7%nat 3%nat eq_refl eq_refl eq_refl).
  - exact (close_order nat nat nat refusing_engine (holding default_config)
             7%nat 3%nat eq_refl eq_refl eq_refl).
Defined.

End BrowserExtra.

(* ================================================================== *)
(** * browser.py: the proxy settings *)
(* ================================================================== *)

Module ConfigExtra.
Import BrowserConfig Manager Engines PyFacts.

(** X25. [__post_init__] always returns and changes no field but [proxy].
    There are proxy settings exactly when a proxy server is set; they
    carry that server, the bypass list when one is set, and either both
    the user name and the password of the configuration, each of them
    set, or neither of them: never one without the other. *)
Theorem post_init_proxy_settings (c : BrowserConfig) :
  exists c',
    __post_init__ c = Ok c'
    /\ c' = set_proxy c (proxy c')
    /\ (proxy c' = None <-> truthy_opt_str (proxy_server c) = false)
    /\ forall ps, proxy c' = Some ps ->
         proxy_server c = Some (server ps)
         /\ server ps <> ""
         /\ bypass ps = if_true (proxy_bypass c)
         /\ ((username ps = None /\ password ps = None)
             \/ (username ps = proxy_username c
                 /\ password ps = proxy_password c
                 /\ truthy_opt_str (username ps) = true
                 /\ truthy_opt_str (password ps) = true)).
Proof.
  unfold __post_init__.
  destruct (proxy_server c) as [[ | ch srv] | ] eqn:Es.
  - eexists. split; [reflexivity | ]. cbn.
    split; [reflexivity | ].
    split; [split; reflexivity | discriminate].
  - eexists. split; [reflexivity | ]. cbn [proxy set_proxy].
    split; [reflexivity | ].
    split; [split; discriminate | ].
    intros ps Hps. injection Hps as <-.
    destruct (truthy_opt_str (proxy_username c)) eqn:Eu;
      destruct (truthy_opt_str (proxy_password c)) eqn:Ep;
      destruct (truthy_opt_str (proxy_bypass c)) eqn:Eb;
      cbn [andb server username password bypass];
      rewrite ?(if_true_truthy _ Eb), ?(if_true_falsy _ Eb);
      (split; [reflexivity | split; [discriminate | split; [reflexivity | ]]]);
      try (left; split; reflexivity).
    + right. repeat split; assumption.
    + right. repeat split; assumption.
  - eexists. split; [reflexivity | ]. cbn.
    split; [reflexivity | ].
    split; [split; reflexivity | discriminate].
Qed.

Lemma post_init_proxy_settings_witness :
  exists c' ps,
    __post_init__ instance_config = Ok c'
    /\ proxy c' = Some ps
    /\ username ps = Some "user" /\ password ps = Some "secret".
Proof.
  destruct (post_init_proxy_settings instance_config)
    as [c' [Hc [_ [_ H]]]].
  vm_compute in Hc. injection Hc as <-.
  eexists. eexists. split; [reflexivity | ].
  split; [reflexivity | split; reflexivity].
Defined.

End ConfigExtra.
